(** * Spinach RAG backend: a shallow embedding of [backend/llm.py],
    [backend/main.py], [backend/config.py] and [backend/routes/documents.py]

    Python values are modelled as follows.
    - A [str] is the list of its Unicode code points ([pystr]); literals of
      the source are written as Rocq string literals and decoded from UTF-8
      by [lit].
    - A [dict] is a [gmap]; [d.get(k)] is the lookup [d !! k], [d.get(k, v)]
      is [default v (d !! k)], and [d[k]] raises [KeyError] on a missing key.
    - A raised exception is the [Raise] branch of [except]; [try]/[except]
      blocks are written out as matches on it.
    - Calls to [logger] have no effect on any value and are left out. *)

From Stdlib Require Import ZArith NArith Lia.
From stdpp Require Import base option list gmap strings sorting.

Set Default Proof Using "Type".
Set Warnings "-register-all".

(** ** Python strings *)

Module PyStr.

Abbreviation pystr := (list N).

(** UTF-8 decoding of the bytes of a source literal: [acc] is the code point
    being assembled and [need] the number of continuation bytes missing. *)
Fixpoint utf8_go (bs : list N) (acc : N) (need : nat) : pystr :=
  match bs with
  | [] => []
  | b :: bs' =>
      match need with
      | O =>
          if (b <? 128)%N then b :: utf8_go bs' 0%N O
          else if (b <? 224)%N then utf8_go bs' (b - 192)%N 1
          else if (b <? 240)%N then utf8_go bs' (b - 224)%N 2
          else utf8_go bs' (b - 240)%N 3
      | S n =>
          let acc' := (acc * 64 + (b - 128))%N in
          match n with
          | O => acc' :: utf8_go bs' 0%N O
          | S _ => utf8_go bs' acc' n
          end
      end
  end.

Fixpoint bytes_of (s : string) : list N :=
  match s with
  | EmptyString => []
  | String a s' => Ascii.N_of_ascii a :: bytes_of s'
  end.

(** A string literal of the source. *)
Definition lit (s : string) : pystr := utf8_go (bytes_of s) 0%N O.

Definition nl : pystr := [10%N].

(** [a == b] on strings. *)
Definition str_eqb (a b : pystr) : bool := bool_decide (a = b).

(** [s.startswith(p)] *)
Fixpoint startswith (s p : pystr) {struct p} : bool :=
  match p, s with
  | [], _ => true
  | _ :: _, [] => false
  | c :: p', d :: s' => (c =? d)%N && startswith s' p'
  end.

(** [s.endswith(p)]: [s[len(s)-len(p):] == p] when [p] is not longer than
    [s]. *)
Definition endswith (s p : pystr) : bool :=
  (length p <=? length s) && str_eqb (drop (length s - length p) s) p.

(** [s.endswith((p1, ..., pn))] *)
Definition endswith_any (s : pystr) (ps : list pystr) : bool :=
  existsb (endswith s) ps.

(** [p in s] for two strings: [p] occurs in [s] as a contiguous run. *)
Fixpoint contains (s p : pystr) : bool :=
  startswith s p ||
  match s with
  | [] => false
  | _ :: s' => contains s' p
  end.

(** [c.isspace()], CPython's [_PyUnicode_IsWhitespace]. *)
Definition isspace (c : N) : bool :=
  ((9 <=? c) && (c <=? 13) || (28 <=? c) && (c <=? 32) || (c =? 133)
   || (c =? 160) || (c =? 5760) || (8192 <=? c) && (c <=? 8202)
   || (c =? 8232) || (c =? 8233) || (c =? 8239) || (c =? 8287)
   || (c =? 12288))%N.

Fixpoint lstrip (s : pystr) : pystr :=
  match s with
  | [] => []
  | c :: s' => if isspace c then lstrip s' else s
  end.

Definition rstrip (s : pystr) : pystr := reverse (lstrip (reverse s)).

(** [s.strip()] *)
Definition strip (s : pystr) : pystr := rstrip (lstrip s).

(** Truth value of a string: non-empty. *)
Definition truthy (s : pystr) : bool :=
  match s with [] => false | _ :: _ => true end.

(** [str(n)] for a non-negative integer. *)
Definition digit (d : nat) : N := (48 + N.of_nat d)%N.

Fixpoint str_of_nat_go (fuel n : nat) (acc : pystr) : pystr :=
  match fuel with
  | O => acc
  | S fuel' =>
      let acc' := digit (n mod 10) :: acc in
      match n / 10 with
      | O => acc'
      | q => str_of_nat_go fuel' q acc'
      end
  end.

Definition str_of_nat (n : nat) : pystr := str_of_nat_go (S n) n [].

(** [int(s)] for a string of decimal digits. *)
Definition digit_value (c : N) : nat := N.to_nat (c - 48).

Definition nat_of_str (s : pystr) : nat :=
  foldl (fun v c => 10 * v + digit_value c) 0 s.

(** Every character is whitespace (also true of the empty string). *)
Definition blank (s : pystr) : Prop := Forall (fun c => isspace c = true) s.

(** A string that does not start with whitespace. *)
Definition starts_clean (s : pystr) : Prop :=
  match s with
  | [] => True
  | c :: _ => isspace c = false
  end.

(** [sep.join(parts)] *)
Fixpoint join (sep : pystr) (parts : list pystr) : pystr :=
  match parts with
  | [] => []
  | [p] => p
  | p :: ps => p ++ sep ++ join sep ps
  end.

End PyStr.

Import PyStr.

(** ** Exceptions *)

Inductive exn :=
  | TransportError                       (* httpx.TransportError and kin *)
  | HTTPStatusError (status : Z)         (* raised by raise_for_status *)
  | KeyError (key : pystr)
  | TypeError
  | AttributeError
  | HTTPException (status_code : Z) (detail : pystr)
  | CollaboratorError (tag : pystr).     (* raised inside a module outside this file *)

Inductive except (A : Type) :=
  | Return (a : A)
  | Raise (e : exn).
Arguments Return {A} a.
Arguments Raise {A} e.

(** Numbers that are only carried around (JSON numbers, sampling
    temperature): an integer or a decimal [mantissa * 10^exponent]. *)
Inductive number :=
  | Int (z : Z)
  | Dec (mantissa exponent : Z).

(** The scalar values of a chunk's metadata. *)
Inductive scalar :=
  | SStr (s : pystr)
  | SInt (z : Z).

#[export] Instance scalar_eq_dec : EqDecision scalar.
Proof. solve_decision. Defined.

Definition str_of_Z (z : Z) : pystr :=
  match z with
  | Zneg _ => lit "-" ++ str_of_nat (Z.to_nat (- z))
  | _ => str_of_nat (Z.to_nat z)
  end.

(** How an f-string renders a scalar. *)
Definition format (v : scalar) : pystr :=
  match v with
  | SStr s => s
  | SInt z => str_of_Z z
  end.

(** ** Handlers: state and exceptions

    A handler that mutates module-level objects is a function from the
    state [S] of those objects to its outcome and the state it leaves; the
    state reached when an exception is raised is kept. *)

Definition SE (S A : Type) : Type := S -> except A * S.

#[export] Instance SE_ret {S} : MRet (SE S) := fun _ a s => (Return a, s).
#[export] Instance SE_bind {S} : MBind (SE S) := fun _ _ k m s =>
  match m s with
  | (Return a, s') => k a s'
  | (Raise e, s') => (Raise e, s')
  end.

Definition lift {S A} (r : except A) : SE S A := fun s => (r, s).
Definition raise {S A} (e : exn) : SE S A := lift (Raise e).
Definition modify {S} (f : S -> S) : SE S unit := fun s => (Return tt, f s).
Definition read {S A} (f : S -> A) : SE S A := fun s => (Return (f s), s).

(** ** [backend/llm.py] *)

Module Llm.

Definition DEFAULT_SYSTEM_PROMPT : pystr :=
  lit "あなたは親切で知識豊富なAIアシスタントです。" ++ nl ++
  lit "ユーザーの質問に対して、正確で分かりやすい回答を提供してください。" ++ nl ++
  lit "提供された参考資料がある場合は、それを活用して回答してください。".

(** [models.Message]: the two attributes the client reads. *)
Record Message := { role : pystr; content : pystr }.

Record Payload := {
  p_model : pystr;
  p_messages : list (gmap pystr pystr);
  p_temperature : number;
  p_stream : bool }.

Record Request := { url : pystr; json_body : Payload }.

(** What [httpx] hands back: for [client.post] the status and the body text,
    for [client.stream] the status and the lines [aiter_lines] delivers,
    followed by the exception it raises when the transport breaks before
    the body is complete. *)
Record Response := { status_code : Z; text : pystr }.

Record StreamResponse := {
  s_status_code : Z;
  s_lines : list pystr;
  s_read_error : option exn }.

Record Backend := {
  post : Request -> except Response;
  open_stream : Request -> except StreamResponse }.

(** [httpx.Response.raise_for_status]: every status outside 2xx raises. *)
Definition raise_for_status (status : Z) : except unit :=
  if ((200 <=? status) && (status <=? 299))%Z then Return tt
  else Raise (HTTPStatusError status).

Record LLMClient := { base_url : pystr; model : pystr }.

(** One consumption of the async generator to its end: the values it
    yielded, in order, and the exception that ended it, if any. *)
Record Run := { yielded : list pystr; raised : option exn }.

Definition messages_dict_of (messages : list Message) : list (gmap pystr pystr) :=
  (fun msg => {[ lit "role" := role msg; lit "content" := content msg ]}) <$> messages.

Definition system_message : gmap pystr pystr :=
  {[ lit "role" := lit "system"; lit "content" := DEFAULT_SYSTEM_PROMPT ]}.

(** Lines 69-71: [messages_dict.insert(0, ...)] unless the first entry has
    role "system". *)
Definition add_system_prompt (messages_dict : list (gmap pystr pystr))
  : list (gmap pystr pystr) :=
  match messages_dict with
  | [] => system_message :: messages_dict
  | first :: _ =>
      if bool_decide (first !! lit "role" ≠ Some (lit "system"))
      then system_message :: messages_dict
      else messages_dict
  end.

(** Lines 90-97: the loop over [response.aiter_lines()].  The result is the
    yielded payloads and whether the loop left through [break]. *)
Fixpoint relay (lines : list pystr) : list pystr * bool :=
  match lines with
  | [] => ([], false)
  | line :: rest =>
      if startswith line (lit "data: ") then
        let data := drop 6 line in
        if str_eqb data (lit "[DONE]") then ([], true)
        else let '(events, done) := relay rest in (data :: events, done)
      else relay rest
  end.

Definition failed (e : exn) : Run := {| yielded := []; raised := Some e |}.

(** Lines 63-78 and the URL of lines 85 and 102: the request both modes
    send. *)
Definition build_request (self : LLMClient) (messages : list Message)
    (stream : bool) (temperature : number) : Request :=
  let messages_dict := add_system_prompt (messages_dict_of messages) in
  let payload := {| p_model := model self; p_messages := messages_dict;
                    p_temperature := temperature; p_stream := stream |} in
  {| url := base_url self ++ lit "/chat/completions"; json_body := payload |}.

(** The payload of a line that starts with the data prefix (lines 91-92). *)
Definition data_payload (line : pystr) : option pystr :=
  if startswith line (lit "data: ") then Some (drop 6 line) else None.

(** [LLMClient.chat_completion], consumed to its end against [backend];
    [log] is the list of requests sent so far.  Both [except] clauses
    re-raise, so the exception that ends the run is the one raised inside
    the [try]. *)
Definition chat_completion (self : LLMClient) (messages : list Message)
    (stream : bool) (temperature : number)
    (backend : Backend) (log : list Request) : Run * list Request :=
  let request := build_request self messages stream temperature in
  if stream then
    match open_stream backend request with
    | Raise e => (failed e, log ++ [request])
    | Return response =>
        match raise_for_status (s_status_code response) with
        | Raise e => (failed e, log ++ [request])
        | Return _ =>
            let '(events, done) := relay (s_lines response) in
            ({| yielded := events;
                raised := if done then None else s_read_error response |},
             log ++ [request])
        end
    end
  else
    match post backend request with
    | Raise e => (failed e, log ++ [request])
    | Return response =>
        match raise_for_status (status_code response) with
        | Raise e => (failed e, log ++ [request])
        | Return _ =>
            ({| yielded := [text response]; raised := None |},
             log ++ [request])
        end
    end.

(** A retrieved context item: the keys [create_rag_prompt] reads.  [None]
    stands for an absent key. *)
Record ContextItem := {
  item_content : option pystr;
  item_metadata : option (gmap pystr scalar) }.

(** The item has the key ["content"]. *)
Definition has_content (item : ContextItem) : Prop := is_Some (item_content item).

(** [item.get("metadata", {}).get("filename", "不明")] *)
Definition source_filename (item : ContextItem) : scalar :=
  let metadata := default ∅ (item_metadata item) in
  default (SStr (lit "不明")) (metadata !! lit "filename").

(** The body of the loop at lines 133-139 for position [i]. *)
Definition context_part (i : nat) (item : ContextItem) : except pystr :=
  match item_content item with
  | None => Raise (KeyError (lit "content"))
  | Some content =>
      Return (lit "[参考資料 " ++ str_of_nat i ++ lit ": "
              ++ format (source_filename item) ++ lit "]" ++ nl ++ content)
  end.

(** [for i, item in enumerate(context, i): context_parts.append(...)] *)
Fixpoint collect_parts (i : nat) (context : list ContextItem)
    (context_parts : list pystr) : except (list pystr) :=
  match context with
  | [] => Return context_parts
  | item :: rest =>
      match context_part i item with
      | Raise e => Raise e
      | Return part => collect_parts (S i) rest (context_parts ++ [part])
      end
  end.

Definition create_rag_prompt (context : list ContextItem) (question : pystr)
  : except pystr :=
  match context with
  | [] => Return question
  | _ :: _ =>
      match collect_parts 1 context [] with
      | Raise e => Raise e
      | Return context_parts =>
          let context_text := join (nl ++ nl) context_parts in
          Return (question ++ nl ++ nl ++ lit "参考資料:" ++ nl ++ context_text)
      end
  end.

(** Two retrieved items: one with a filename, one without metadata. *)
Definition sample_context : list ContextItem :=
  [ {| item_content := Some (lit "Spinach is a leafy green.");
       item_metadata := Some {[ lit "filename" := SStr (lit "greens.md");
                                 lit "chunk_index" := SInt 0 ]} |};
    {| item_content := Some (lit "It is rich in iron.");
       item_metadata := None |} ].

(** A client and backends to run the gateway against. *)
Definition local_client : LLMClient :=
  {| base_url := lit "http://localhost:8080/v1"; model := lit "gemma-3n" |}.

Definition streaming_backend (status : Z) (lines : list pystr)
    (read_error : option exn) : Backend :=
  {| post := fun _ => Raise TransportError;
     open_stream := fun _ =>
       Return {| s_status_code := status; s_lines := lines;
                 s_read_error := read_error |} |}.

Definition replying_backend (status : Z) (body : pystr) : Backend :=
  {| post := fun _ => Return {| status_code := status; text := body |};
     open_stream := fun _ => Raise TransportError |}.

Definition unreachable_backend : Backend :=
  {| post := fun _ => Raise TransportError;
     open_stream := fun _ => Raise TransportError |}.

End Llm.

(** ** [backend/config.py] and [backend/main.py] *)

Module Main.

(** A decoded JSON value, as FastAPI passes it to a handler. *)
Inductive json :=
  | JNull
  | JBool (b : bool)
  | JNum (n : number)
  | JStr (s : pystr)
  | JArr (items : list json)
  | JObj (fields : gmap pystr json).

(** [config.Settings].  The three attributes [update_settings] assigns hold
    whatever JSON value the request carried (assignment is not validated);
    the others keep their declared types. *)
Record Settings := {
  backend_port : Z;
  backend_host : pystr;
  lm_studio_base_url : json;
  lm_studio_model : pystr;
  chroma_persist_dir : pystr;
  chroma_collection_name : pystr;
  embedding_model : pystr;
  embedding_device : pystr;
  rag_top_k : json;
  rag_similarity_threshold : json;
  chunk_size : Z;
  chunk_overlap : Z;
  cors_origins : pystr }.

(** The defaults of [config.py]. *)
Definition default_settings : Settings := {|
  backend_port := 8000;
  backend_host := lit "0.0.0.0";
  lm_studio_base_url := JStr (lit "http://localhost:8080/v1");
  lm_studio_model := lit "/Users/matsbaccano/Library/Caches/llama.cpp/bartowski_google_gemma-3n-E4B-it-GGUF_google_gemma-3n-E4B-it-Q6_K.gguf";
  chroma_persist_dir := lit "../chroma_data";
  chroma_collection_name := lit "documents";
  embedding_model := lit "intfloat/multilingual-e5-base";
  embedding_device := lit "cpu";
  rag_top_k := JNum (Int 3);
  rag_similarity_threshold := JNum (Dec 5 (-1));
  chunk_size := 1000;
  chunk_overlap := 200;
  cors_origins := lit "http://localhost:3000,https://localhost:3000,http://localhost:3001,https://localhost:3001" |}.

(** The module-level objects the handler mutates: [config.settings] and the
    [base_url] attribute of [llm.llm_client]. *)
Record Globals := {
  settings : Settings;
  llm_client_base_url : json }.

Definition set_lm_studio_base_url (v : json) (s : Settings) : Settings :=
  {| backend_port := backend_port s; backend_host := backend_host s;
     lm_studio_base_url := v;
     lm_studio_model := lm_studio_model s;
     chroma_persist_dir := chroma_persist_dir s;
     chroma_collection_name := chroma_collection_name s;
     embedding_model := embedding_model s;
     embedding_device := embedding_device s;
     rag_top_k := rag_top_k s;
     rag_similarity_threshold := rag_similarity_threshold s;
     chunk_size := chunk_size s; chunk_overlap := chunk_overlap s;
     cors_origins := cors_origins s |}.

Definition set_rag_top_k (v : json) (s : Settings) : Settings :=
  {| backend_port := backend_port s; backend_host := backend_host s;
     lm_studio_base_url := lm_studio_base_url s;
     lm_studio_model := lm_studio_model s;
     chroma_persist_dir := chroma_persist_dir s;
     chroma_collection_name := chroma_collection_name s;
     embedding_model := embedding_model s;
     embedding_device := embedding_device s;
     rag_top_k := v;
     rag_similarity_threshold := rag_similarity_threshold s;
     chunk_size := chunk_size s; chunk_overlap := chunk_overlap s;
     cors_origins := cors_origins s |}.

Definition set_rag_similarity_threshold (v : json) (s : Settings) : Settings :=
  {| backend_port := backend_port s; backend_host := backend_host s;
     lm_studio_base_url := lm_studio_base_url s;
     lm_studio_model := lm_studio_model s;
     chroma_persist_dir := chroma_persist_dir s;
     chroma_collection_name := chroma_collection_name s;
     embedding_model := embedding_model s;
     embedding_device := embedding_device s;
     rag_top_k := rag_top_k s;
     rag_similarity_threshold := v;
     chunk_size := chunk_size s; chunk_overlap := chunk_overlap s;
     cors_origins := cors_origins s |}.

(** The attributes no handler of [main.py] assigns. *)
Definition fixed_fields (s : Settings) :=
  (backend_port s, backend_host s, lm_studio_model s, chroma_persist_dir s,
   chroma_collection_name s, embedding_model s, embedding_device s,
   chunk_size s, chunk_overlap s, cors_origins s).

Definition on_settings (f : Settings -> Settings) (g : Globals) : Globals :=
  {| settings := f (settings g); llm_client_base_url := llm_client_base_url g |}.

Definition set_llm_client_base_url (v : json) (g : Globals) : Globals :=
  {| settings := settings g; llm_client_base_url := v |}.

(** [key in container] for a string [key]. *)
Definition py_in (key : pystr) (container : json) : except bool :=
  match container with
  | JObj fields => Return (bool_decide (is_Some (fields !! key)))
  | JStr s => Return (contains s key)
  | JArr items =>
      Return (existsb (fun x => match x with
                                | JStr s => str_eqb s key
                                | _ => false
                                end) items)
  | JNull | JBool _ | JNum _ => Raise TypeError
  end.

(** [container[key]] for a string [key]. *)
Definition subscript (container : json) (key : pystr) : except json :=
  match container with
  | JObj fields =>
      match fields !! key with
      | Some v => Return v
      | None => Raise (KeyError key)
      end
  | _ => Raise TypeError
  end.

(** Lines 198-205. *)
Definition update_llm (update_data : gmap pystr json)
    (updated_fields : list pystr) : SE Globals (list pystr) :=
  match update_data !! lit "llm" with
  | None => mret updated_fields
  | Some llm =>
      has_base_url ← lift (py_in (lit "base_url") llm);
      if has_base_url : bool then
        v ← lift (subscript llm (lit "base_url"));
        _ ← modify (on_settings (set_lm_studio_base_url v));
        url ← read (fun g => lm_studio_base_url (settings g));
        _ ← modify (set_llm_client_base_url url);
        mret (updated_fields ++ [lit "llm.base_url"])
      else mret updated_fields
  end.

(** Lines 208-214. *)
Definition update_rag (update_data : gmap pystr json)
    (updated_fields : list pystr) : SE Globals (list pystr) :=
  match update_data !! lit "rag" with
  | None => mret updated_fields
  | Some rag =>
      has_top_k ← lift (py_in (lit "top_k") rag);
      updated_fields ←
        (if has_top_k : bool then
           v ← lift (subscript rag (lit "top_k"));
           _ ← modify (on_settings (set_rag_top_k v));
           mret (updated_fields ++ [lit "rag.top_k"])
         else mret updated_fields);
      has_threshold ← lift (py_in (lit "similarity_threshold") rag);
      if has_threshold : bool then
        v ← lift (subscript rag (lit "similarity_threshold"));
        _ ← modify (on_settings (set_rag_similarity_threshold v));
        mret (updated_fields ++ [lit "rag.similarity_threshold"])
      else mret updated_fields
  end.

Inductive UpdateResponse :=
  | Updated (updated_fields : list pystr)       (* success: True *)
  | ServerError (e : exn).                      (* JSONResponse, status 500 *)

(** [update_settings]: the [try] body, then the [except Exception] arm. *)
Definition update_settings (update_data : gmap pystr json) (g : Globals)
  : UpdateResponse * Globals :=
  match (updated_fields ← update_llm update_data [];
         update_rag update_data updated_fields) g with
  | (Return updated_fields, g') => (Updated updated_fields, g')
  | (Raise e, g') => (ServerError e, g')
  end.

(** A computation that leaves the fixed attributes of [settings] alone,
    whether it returns or raises. *)
Definition keeps_fixed {A} (m : SE Globals A) : Prop :=
  forall g, fixed_fields (settings (m g).2) = fixed_fields (settings g).

Definition startup : Globals :=
  {| settings := default_settings;
     llm_client_base_url := lm_studio_base_url default_settings |}.

(** [get_settings]: the current settings as the nested object the route
    answers with. *)
Definition get_settings (g : Globals) : gmap pystr json :=
  let s := settings g in
  {[ lit "backend" :=
       JObj {[ lit "host" := JStr (backend_host s);
               lit "port" := JNum (Int (backend_port s)) ]};
     lit "llm" :=
       JObj {[ lit "base_url" := lm_studio_base_url s;
               lit "model" := JStr (lm_studio_model s) ]};
     lit "chromadb" :=
       JObj {[ lit "persist_dir" := JStr (chroma_persist_dir s);
               lit "collection_name" := JStr (chroma_collection_name s) ]};
     lit "embeddings" :=
       JObj {[ lit "model" := JStr (embedding_model s);
               lit "device" := JStr (embedding_device s) ]};
     lit "rag" :=
       JObj {[ lit "top_k" := rag_top_k s;
               lit "similarity_threshold" := rag_similarity_threshold s;
               lit "chunk_size" := JNum (Int (chunk_size s));
               lit "chunk_overlap" := JNum (Int (chunk_overlap s)) ]};
     lit "cors" := JObj {[ lit "origins" := JStr (cors_origins s) ]} ]}.

(** A computation that leaves a part [proj] of the globals as it was,
    whether it returns or raises. *)
Definition keeps {T A} (proj : Globals -> T) (m : SE Globals A) : Prop :=
  forall g, proj (m g).2 = proj g.

(** The client talks to the URL the settings hold. *)
Definition synced (g : Globals) : Prop :=
  llm_client_base_url g = lm_studio_base_url (settings g).

(** The entry [update_data[section][key]] of a request body, when
    [update_data[section]] is an object that has it. *)
Definition body_entry (update_data : gmap pystr json) (section key : pystr)
  : option json :=
  match update_data !! section with
  | Some (JObj fields) => fields !! key
  | _ => None
  end.

(** The body has no [section], or an object there. *)
Definition section_ok (update_data : gmap pystr json) (section : pystr) : Prop :=
  match update_data !! section with
  | None | Some (JObj _) => True
  | Some _ => False
  end.

(** A JSON value that is neither a string nor an array nor an object. *)
Definition not_a_container (v : json) : Prop :=
  match v with
  | JNull | JBool _ | JNum _ => True
  | JStr _ | JArr _ | JObj _ => False
  end.

End Main.

(** ** [backend/routes/documents.py] *)

Module Documents.

Abbreviation metadata := (gmap pystr scalar).

(** [s.split(sep)] for a one-character separator. *)
Fixpoint split (sep : N) (s : pystr) : list pystr :=
  match s with
  | [] => [[]]
  | c :: s' =>
      if (c =? sep)%N then [] :: split sep s'
      else match split sep s' with
           | [] => [[c]]
           | piece :: pieces => (c :: piece) :: pieces
           end
  end.

(** [parts[-1]] of a non-empty list. *)
Definition last_item (parts : list pystr) : pystr := default [] (last parts).

(** How an f-string renders an optional string. *)
Definition format_opt (o : option pystr) : pystr := default (lit "None") o.

Record TextUploadRequest := { req_text : pystr; req_filename : pystr }.

(** [fastapi.UploadFile]: the attributes the handler reads, and the bytes
    [file.read()] returns. *)
Record UploadFile := {
  filename : option pystr;
  content_type : option pystr;
  file_bytes : list N }.

Record DocumentUploadResponse := {
  success : bool;
  message : pystr;
  document_count : Z;
  chunk_count : Z }.

Record DeleteResponse := {
  d_success : bool;
  d_message : pystr;
  chunks_deleted : Z }.

Section Handlers.

(** The modules [text_processing], [embeddings] and [vectordb] are imported
    by the routes and are taken as given: each function may return or
    raise; those of [vector_db] also act on its state. *)
Variable embedding : Type.
Variable vectordb : Type.
Variable extract_text_from_file :
  list N -> pystr -> option pystr -> except pystr.
Variable clean_text : pystr -> except pystr.
Variable create_chunks_with_metadata :
  pystr -> option pystr -> pystr -> except (list pystr * list pystr * list metadata).
Variable encode_documents : list pystr -> except (list embedding).
Variable add_documents :
  list pystr -> list pystr -> list embedding -> list metadata ->
  vectordb -> except unit * vectordb.
Variable delete_by_filename : pystr -> vectordb -> except Z * vectordb.
(** [str(e)] for an exception object. *)
Variable str_exn : exn -> pystr.

(** The calls a handler makes to those modules, in order. *)
Inductive Call :=
  | CallExtract (content : list N) (file_type : pystr) (name : option pystr)
  | CallClean (text : pystr)
  | CallChunk (text : pystr) (name : option pystr) (file_type : pystr)
  | CallEncode (chunks : list pystr)
  | CallAdd (ids documents : list pystr) (embeddings : list embedding)
      (metadatas : list metadata)
  | CallDelete (name : pystr).

Record World := { db : vectordb; trace : list Call }.

Definition call {A} (c : Call) (r : except A) : SE World A :=
  fun w => (r, {| db := db w; trace := trace w ++ [c] |}).

Definition call_db {A} (c : Call) (op : vectordb -> except A * vectordb)
  : SE World A :=
  fun w => let '(r, d) := op (db w) in (r, {| db := d; trace := trace w ++ [c] |}).

(** The two [except] arms every handler ends with: an [HTTPException] is
    re-raised, anything else becomes a 500 whose detail is [prefix] followed
    by [str(e)]. *)
Definition guard {A} (prefix : pystr) (body : SE World A) : SE World A :=
  fun w =>
    match body w with
    | (Raise (HTTPException code detail), w') => (Raise (HTTPException code detail), w')
    | (Raise e, w') => (Raise (HTTPException 500 (prefix ++ str_exn e)), w')
    | (Return a, w') => (Return a, w')
    end.

(** Line 48: [file.content_type or file.filename.split(".")[-1]] *)
Definition file_type_of (file : UploadFile) : except pystr :=
  let from_name :=
    match filename file with
    | Some name => Return (last_item (split 46 name))
    | None => Raise AttributeError
    end in
  match content_type file with
  | Some ct => if truthy ct then Return ct else from_name
  | None => from_name
  end.

Definition upload_document (file : UploadFile) : SE World DocumentUploadResponse :=
  guard (lit "Failed to upload document: ") (
    let content := file_bytes file in
    file_type ← lift (file_type_of file);
    text ← call (CallExtract content file_type (filename file))
              (extract_text_from_file content file_type (filename file));
    text ← call (CallClean text) (clean_text text);
    if negb (truthy (strip text)) then
      raise (HTTPException 400
               (lit "Failed to extract text from file or file is empty"))
    else
      r ← call (CallChunk text (filename file) file_type)
             (create_chunks_with_metadata text (filename file) file_type);
      let '(chunk_ids, chunks, metadatas) := r in
      embeddings ← call (CallEncode chunks) (encode_documents chunks);
      _ ← call_db (CallAdd chunk_ids chunks embeddings metadatas)
             (add_documents chunk_ids chunks embeddings metadatas);
      mret {| success := true;
              message := lit "Successfully uploaded " ++ format_opt (filename file);
              document_count := 1;
              chunk_count := Z.of_nat (length chunks) |}).

(** Lines 363-365 of [upload_text]. *)
Definition stored_filename (name : pystr) : pystr :=
  if negb (endswith_any name [lit ".md"; lit ".txt"]) then name ++ lit ".md"
  else name.

Definition upload_text (request : TextUploadRequest)
  : SE World DocumentUploadResponse :=
  guard (lit "Failed to upload text: ") (
    text ← call (CallClean (req_text request)) (clean_text (req_text request));
    if negb (truthy (strip text)) then
      raise (HTTPException 400 (lit "テキストが空です"))
    else
      let name := stored_filename (req_filename request) in
      r ← call (CallChunk text (Some name) (lit "markdown"))
             (create_chunks_with_metadata text (Some name) (lit "markdown"));
      let '(chunk_ids, chunks, metadatas) := r in
      embeddings ← call (CallEncode chunks) (encode_documents chunks);
      _ ← call_db (CallAdd chunk_ids chunks embeddings metadatas)
             (add_documents chunk_ids chunks embeddings metadatas);
      mret {| success := true;
              message := lit "テキストをRAGに追加しました: " ++ name;
              document_count := 1;
              chunk_count := Z.of_nat (length chunks) |}).

Definition delete_document (name : pystr) : SE World DeleteResponse :=
  guard (lit "Failed to delete document: ") (
    deleted_count ← call_db (CallDelete name) (delete_by_filename name);
    if (deleted_count =? 0)%Z then
      raise (HTTPException 404 (lit "Document not found: " ++ name))
    else
      mret {| d_success := true;
              d_message := lit "Successfully deleted " ++ name;
              chunks_deleted := deleted_count |}).

End Handlers.

Arguments CallExtract {embedding}.
Arguments CallClean {embedding}.
Arguments CallChunk {embedding}.
Arguments CallEncode {embedding}.
Arguments CallAdd {embedding}.
Arguments CallDelete {embedding}.
Arguments db {embedding vectordb}.
Arguments trace {embedding vectordb}.
Arguments Build_World {embedding vectordb}.
Arguments upload_document {embedding vectordb}.
Arguments upload_text {embedding vectordb}.
Arguments delete_document {embedding vectordb}.

(** *** The read-only routes *)

(** What [vector_db.get_all_documents()] returns: three lists, under the
    keys ["ids"], ["documents"] and ["metadatas"]. *)
Record AllDocuments := {
  all_ids : list pystr;
  all_documents : list pystr;
  all_metadatas : list metadata }.

(** Python's [IndexError]. *)
Definition IndexError : exn := CollaboratorError (lit "IndexError").

#[export] Instance except_ret : MRet except := @Return.
#[export] Instance except_bind : MBind except := fun _ _ k m =>
  match m with
  | Return a => k a
  | Raise e => Raise e
  end.

(** [l[i]] for an index counted from 0. *)
Definition item {A} (l : list A) (i : nat) : except A :=
  match l !! i with
  | Some x => Return x
  | None => Raise IndexError
  end.

(** [metadata.get(key, dflt)] *)
Definition get_or (md : metadata) (key : pystr) (dflt : scalar) : scalar :=
  default dflt (md !! key).

(** An entry of [documents_map] in [list_documents]. *)
Record DocumentSummary := {
  doc_filename : scalar;
  doc_file_type : scalar;
  doc_chunk_count : Z;
  doc_upload_timestamp : scalar;
  doc_total_chars : Z }.

Record DocumentListResponse := {
  documents : list DocumentSummary;
  total_count : Z }.

(** Lines 125-126 on the entry of [name]: one more chunk, [chars] more
    characters.  [documents_map] is the dict in insertion order. *)
Fixpoint count_chunk (name : scalar) (chars : Z)
    (documents_map : list (scalar * DocumentSummary))
  : list (scalar * DocumentSummary) :=
  match documents_map with
  | [] => []
  | (key, d) :: rest =>
      if bool_decide (key = name) then
        (key, {| doc_filename := doc_filename d;
                 doc_file_type := doc_file_type d;
                 doc_chunk_count := doc_chunk_count d + 1;
                 doc_upload_timestamp := doc_upload_timestamp d;
                 doc_total_chars := doc_total_chars d + chars |}) :: rest
      else (key, d) :: count_chunk name chars rest
  end.

(** Lines 113-126: the body of the loop for one chunk's metadata.  Adding a
    string to the integer [total_chars] is a [TypeError]. *)
Definition visit (md : metadata)
    (documents_map : list (scalar * DocumentSummary))
  : except (list (scalar * DocumentSummary)) :=
  let name := get_or md (lit "filename") (SStr (lit "unknown")) in
  let documents_map :=
    if bool_decide (name ∈ documents_map.*1) then documents_map
    else documents_map ++
         [(name, {| doc_filename := name;
                    doc_file_type := get_or md (lit "file_type") (SStr (lit "unknown"));
                    doc_chunk_count := 0;
                    doc_upload_timestamp := get_or md (lit "upload_timestamp") (SStr []);
                    doc_total_chars := 0 |})] in
  match get_or md (lit "char_count") (SInt 0) with
  | SInt chars => Return (count_chunk name chars documents_map)
  | SStr _ => Raise TypeError
  end.

(** [for i, doc_id in enumerate(results["ids"]): ...] from index [i]. *)
Fixpoint group_chunks (i : nat) (ids : list pystr) (metadatas : list metadata)
    (documents_map : list (scalar * DocumentSummary))
  : except (list (scalar * DocumentSummary)) :=
  match ids with
  | [] => Return documents_map
  | _ :: ids' =>
      md ← item metadatas i;
      documents_map ← visit md documents_map;
      group_chunks (S i) ids' metadatas documents_map
  end.

(** An element of [chunks] in [get_document_content]. *)
Record ChunkView := {
  chunk_index : scalar;
  chunk_content : pystr;
  chunk_char_count : scalar }.

Record ContentResponse := {
  c_filename : pystr;
  total_chunks : Z;
  chunks : list ChunkView }.

(** Lines 156-163, from index [i]. *)
Fixpoint matching_chunks (i : nat) (ids : list pystr) (results : AllDocuments)
    (name : pystr) (found : list ChunkView) : except (list ChunkView) :=
  match ids with
  | [] => Return found
  | _ :: ids' =>
      md ← item (all_metadatas results) i;
      if bool_decide (md !! lit "filename" = Some (SStr name)) then
        doc ← item (all_documents results) i;
        matching_chunks (S i) ids' results name
          (found ++ [ {| chunk_index := get_or md (lit "chunk_index") (SInt 0);
                         chunk_content := doc;
                         chunk_char_count := get_or md (lit "char_count") (SInt 0) |} ])
      else matching_chunks (S i) ids' results name found
  end.

(** [a < b] on strings: by code points, a proper prefix first. *)
Fixpoint str_ltb (a b : pystr) : bool :=
  match a, b with
  | _, [] => false
  | [], _ :: _ => true
  | x :: a', y :: b' => (x <? y)%N || ((x =? y)%N && str_ltb a' b')
  end.

(** [a < b] on sort keys; an integer and a string do not compare. *)
Definition py_lt (a b : scalar) : except bool :=
  match a, b with
  | SInt x, SInt y => Return (x <? y)%Z
  | SStr x, SStr y => Return (str_ltb x y)
  | _, _ => Raise TypeError
  end.

(** [chunks.sort(key=lambda x: x["chunk_index"])].  The sort is stable and
    compares keys with [<] only: an element is put before the first one that
    is not smaller than it.  Any comparison sort of keys of both kinds
    compares an integer with a string at some point and raises. *)
Fixpoint insert_chunk (x : ChunkView) (sorted : list ChunkView)
  : except (list ChunkView) :=
  match sorted with
  | [] => Return [x]
  | y :: rest =>
      smaller ← py_lt (chunk_index y) (chunk_index x);
      if smaller : bool then
        rest' ← insert_chunk x rest; Return (y :: rest')
      else Return (x :: y :: rest)
  end.

Fixpoint sort_chunks (l : list ChunkView) : except (list ChunkView) :=
  match l with
  | [] => Return []
  | x :: rest => sorted ← sort_chunks rest; insert_chunk x sorted
  end.

(** The name a chunk is listed under and the characters it counts for. *)
Definition listed_name (md : metadata) : scalar :=
  get_or md (lit "filename") (SStr (lit "unknown")).

Definition listed_chars (md : metadata) : Z :=
  match get_or md (lit "char_count") (SInt 0) with
  | SInt z => z
  | SStr _ => 0
  end.

(** How many of the chunks [mds] are listed under [name], and how many
    characters they count for. *)
Definition chunks_under (name : scalar) (mds : list metadata) : Z :=
  Z.of_nat (length (filter (fun md => listed_name md = name) mds)).

Definition chars_under (name : scalar) (mds : list metadata) : Z :=
  foldr (fun md acc => if decide (listed_name md = name)
                       then (listed_chars md + acc)%Z else acc) 0%Z mds.

(** An entry of [documents_map] describes the chunks [mds]; the whole map
    groups them. *)
Definition describes (mds : list metadata) (entry : scalar * DocumentSummary)
  : Prop :=
  doc_filename entry.2 = entry.1
  /\ doc_chunk_count entry.2 = chunks_under entry.1 mds
  /\ doc_total_chars entry.2 = chars_under entry.1 mds.

Definition grouped (mds : list metadata)
    (documents_map : list (scalar * DocumentSummary)) : Prop :=
  NoDup documents_map.*1
  /\ Forall (describes mds) documents_map
  /\ Forall (fun md => listed_name md ∈ documents_map.*1) mds.

(** The value under [key] is an integer, or [key] is absent. *)
Definition int_or_absent (md : metadata) (key : pystr) : Prop :=
  exists z, get_or md key (SInt 0) = SInt z.

(** The chunks of [name] among the first [n] rows of the store, in store
    order, as [get_document_content] shows them. *)
Definition view_of (row : metadata * pystr) : ChunkView :=
  {| chunk_index := get_or row.1 (lit "chunk_index") (SInt 0);
     chunk_content := row.2;
     chunk_char_count := get_or row.1 (lit "char_count") (SInt 0) |}.

Definition rows_of (results : AllDocuments) : list (metadata * pystr) :=
  let n := length (all_ids results) in
  zip (take n (all_metadatas results)) (take n (all_documents results)).

Definition chunks_of (name : pystr) (results : AllDocuments) : list ChunkView :=
  view_of <$>
    filter (fun row => row.1 !! lit "filename" = Some (SStr name))
      (rows_of results).

Definition index_of (c : ChunkView) : Z :=
  match chunk_index c with
  | SInt z => z
  | SStr _ => 0
  end.

Definition int_index (c : ChunkView) : Prop :=
  exists z, chunk_index c = SInt z.

Section Queries.

Variable str_exn : exn -> pystr.

(** The two [except] arms of a handler, for one that only reads. *)
Definition answer {A} (prefix : pystr) (body : except A) : except A :=
  match body with
  | Raise (HTTPException code detail) => Raise (HTTPException code detail)
  | Raise e => Raise (HTTPException 500 (prefix ++ str_exn e))
  | Return a => Return a
  end.

(** [list_documents], given the outcome of [vector_db.get_all_documents()].
    The answer is what the handler passes to [DocumentListResponse]. *)
Definition list_documents (get_all_documents : except AllDocuments)
  : except DocumentListResponse :=
  answer (lit "Failed to list documents: ") (
    results ← get_all_documents;
    documents_map ← group_chunks 0 (all_ids results) (all_metadatas results) [];
    Return {| documents := documents_map.*2;
              total_count := Z.of_nat (length documents_map) |}).

(** [get_document_content], given the outcome of
    [vector_db.get_all_documents()]. *)
Definition get_document_content (name : pystr)
    (get_all_documents : except AllDocuments) : except ContentResponse :=
  answer (lit "Failed to get document content: ") (
    results ← get_all_documents;
    found ← matching_chunks 0 (all_ids results) results name [];
    match found with
    | [] => Raise (HTTPException 404 (lit "Document not found: " ++ name))
    | _ :: _ =>
        sorted ← sort_chunks found;
        Return {| c_filename := name;
                  total_chunks := Z.of_nat (length sorted);
                  chunks := sorted |}
    end).

End Queries.

(** *** A vector store and collaborators to run the handlers against *)

Record ChunkRecord := {
  rec_id : pystr;
  rec_document : pystr;
  rec_embedding : list Z;
  rec_metadata : metadata }.

(** Modelled from the spec: [vectordb.py] is not among the sources.  Section
    4.3: the store is a collection of (id, vector, text, metadata) records;
    [add] takes four sequences of the same length and a record whose id is
    already present replaces the earlier one; records keep insertion
    order. *)
Fixpoint upsert (r : ChunkRecord) (store : list ChunkRecord) : list ChunkRecord :=
  match store with
  | [] => [r]
  | r' :: store' =>
      if str_eqb (rec_id r') (rec_id r) then r :: store'
      else r' :: upsert r store'
  end.

Fixpoint records (ids documents : list pystr) (embeddings : list (list Z))
    (metadatas : list metadata) : option (list ChunkRecord) :=
  match ids, documents, embeddings, metadatas with
  | [], [], [], [] => Some []
  | i :: ids', d :: documents', e :: embeddings', m :: metadatas' =>
      rs ← records ids' documents' embeddings' metadatas';
      Some ({| rec_id := i; rec_document := d; rec_embedding := e;
               rec_metadata := m |} :: rs)
  | _, _, _, _ => None
  end.

Definition store_add (ids documents : list pystr) (embeddings : list (list Z))
    (metadatas : list metadata) (store : list ChunkRecord)
  : except unit * list ChunkRecord :=
  match records ids documents embeddings metadatas with
  | Some rs => (Return tt, foldl (fun st r => upsert r st) store rs)
  | None => (Raise (CollaboratorError (lit "StoreError")), store)
  end.

Definition has_filename (name : pystr) (r : ChunkRecord) : bool :=
  bool_decide (rec_metadata r !! lit "filename" = Some (SStr name)).

(** Modelled from the spec: [vector_db.delete_by_filename] is not among the
    sources.  Section 4.3: [deleteByFilter(metadataKey, value)] removes the
    whole matching set and returns the count removed, 0 if nothing
    matched. *)
Definition store_delete_by_filename (name : pystr) (store : list ChunkRecord)
  : except Z * list ChunkRecord :=
  (Return (Z.of_nat (length (filter (fun r => has_filename name r = true) store))),
   filter (fun r => has_filename name r = false) store).

(** Modelled from the spec: [text_processing.create_chunks_with_metadata] is
    not among the sources.  Sections 3 and 4.1, for a text shorter than the
    chunk size: exactly one chunk, with index 0, an id derived from the
    filename and the index, and metadata carrying the filename, the file
    type, the index and the character count. *)
Definition one_chunk (text : pystr) (name : option pystr) (file_type : pystr)
  : except (list pystr * list pystr * list metadata) :=
  Return ([format_opt name ++ lit "_0"], [text],
          [ {[ lit "filename" := SStr (format_opt name);
               lit "file_type" := SStr file_type;
               lit "chunk_index" := SInt 0;
               lit "char_count" := SInt (Z.of_nat (length text)) ]} ]).

(** Collaborators for the examples: text is taken as uploaded, and a chunk
    is embedded as its length. *)
Definition text_of_bytes (content : list N) (file_type : pystr)
    (name : option pystr) : except pystr := Return content.
Definition keep_text (text : pystr) : except pystr := Return text.
Definition embed_lengths (chunks : list pystr) : except (list (list Z)) :=
  Return ((fun c => [Z.of_nat (length c)]) <$> chunks).
Definition no_message (e : exn) : pystr := [].


(** What the sample store answers to [get_all_documents]. *)
Definition store_get_all (store : list ChunkRecord) : except AllDocuments :=
  Return {| all_ids := rec_id <$> store;
            all_documents := rec_document <$> store;
            all_metadatas := rec_metadata <$> store |}.

(** The handlers over that store and those collaborators. *)
Definition sample_upload_text :=
  upload_text keep_text one_chunk embed_lengths store_add no_message.
Definition sample_upload_document :=
  upload_document text_of_bytes keep_text one_chunk embed_lengths store_add
    no_message.
Definition sample_delete_document :=
  delete_document (embedding := list Z) store_delete_by_filename no_message.

Definition empty_world : World (list Z) (list ChunkRecord) :=
  {| db := []; trace := [] |}.

(** A store holding two chunks of [greens.md] and one of [roots.md]. *)
Definition sample_record (name : pystr) (index : nat) (text : pystr)
  : ChunkRecord :=
  {| rec_id := name ++ lit "_" ++ str_of_nat index;
     rec_document := text;
     rec_embedding := [Z.of_nat (length text)];
     rec_metadata := {[ lit "filename" := SStr name;
                        lit "chunk_index" := SInt (Z.of_nat index) ]} |}.

Definition stocked_world : World (list Z) (list ChunkRecord) :=
  {| db := [ sample_record (lit "greens.md") 0 (lit "Spinach is a leafy green.");
             sample_record (lit "roots.md") 0 (lit "Carrots are roots.");
             sample_record (lit "greens.md") 1 (lit "It is rich in iron.") ];
     trace := [] |}.

End Documents.

(** ** [backend/config.py]: the derived list of origins *)

Module Config.

(** [Settings.cors_origins_list]:
    [[origin.strip() for origin in self.cors_origins.split(",")]] *)
Definition cors_origins_list (s : Main.Settings) : list pystr :=
  strip <$> Documents.split 44 (Main.cors_origins s).

End Config.

(** * Properties *)

(** ** Strings *)

Section StringFacts.

Lemma startswith_app (s p : pystr) :
  startswith s p = true <-> exists r, s = p ++ r.
Proof.
  revert s. induction p as [|c p IH]; intros s; simpl.
  - split; [intros _; by exists s | done].
  - destruct s as [|d s]; simpl.
    + split; [done | intros [r Hr]; discriminate].
    + rewrite andb_true_iff, N.eqb_eq, IH. split.
      * intros [-> [r ->]]. by exists r.
      * intros [r Hr]. injection Hr as -> ->. eauto.
Qed.

Lemma startswith_drop (s p : pystr) :
  startswith s p = true -> s = p ++ drop (length p) s.
Proof.
  intros [r ->]%startswith_app. by rewrite drop_app_length.
Qed.

Lemma str_eqb_eq (a b : pystr) : str_eqb a b = true <-> a = b.
Proof. unfold str_eqb. by rewrite bool_decide_eq_true. Qed.

Lemma str_eqb_neq (a b : pystr) : str_eqb a b = false <-> a <> b.
Proof. unfold str_eqb. by rewrite bool_decide_eq_false. Qed.

Lemma lstrip_blank (s : pystr) : lstrip s = [] <-> blank s.
Proof.
  unfold blank. induction s as [|c s IH]; cbn [lstrip].
  - split; [constructor | done].
  - destruct (isspace c) eqn:Hc.
    + rewrite IH. split; [by constructor | by intros [_ ?]%Forall_cons].
    + split; [done | intros [? _]%Forall_cons; congruence].
Qed.

(** What [lstrip] leaves does not start with whitespace. *)
Lemma lstrip_head (s : pystr) (c : N) (rest : pystr) :
  lstrip s = c :: rest -> isspace c = false.
Proof.
  induction s as [|d s IH]; cbn [lstrip]; [done|].
  destruct (isspace d) eqn:Hd; [done|]. by intros [= <- _].
Qed.

(** [not text.strip()] holds exactly of the strings made of whitespace. *)
Lemma strip_blank (s : pystr) : strip s = [] <-> blank s.
Proof.
  unfold strip, rstrip. split.
  - intros H. apply (f_equal reverse) in H.
    rewrite reverse_involutive, reverse_nil in H.
    apply lstrip_blank in H. unfold blank in H.
    rewrite Forall_reverse in H. apply lstrip_blank.
    destruct (lstrip s) as [|c rest] eqn:Hl; [done|].
    apply lstrip_head in Hl. apply Forall_cons in H as [H _]. congruence.
  - intros H. apply lstrip_blank in H. by rewrite H.
Qed.

Lemma truthy_strip (s : pystr) : truthy (strip s) = false <-> blank s.
Proof.
  rewrite <- strip_blank. by destruct (strip s).
Qed.

Lemma digit_value_digit (d : nat) : digit_value (digit d) = d.
Proof. unfold digit_value, digit. lia. Qed.

Lemma nat_of_str_snoc (s : pystr) (c : N) :
  nat_of_str (s ++ [c]) = 10 * nat_of_str s + digit_value c.
Proof. unfold nat_of_str. by rewrite foldl_app. Qed.

Lemma str_of_nat_go_acc (fuel : nat) :
  forall (n : nat) (acc : pystr),
  str_of_nat_go fuel n acc = str_of_nat_go fuel n [] ++ acc.
Proof.
  induction fuel as [|fuel IH]; intros n acc; cbn [str_of_nat_go]; [done|].
  destruct (n / 10) as [|q]; [done|].
  rewrite (IH (S q) (_ :: acc)), (IH (S q) [_]), <- app_assoc. done.
Qed.

Lemma nat_of_str_go (fuel : nat) :
  forall n, n < fuel -> nat_of_str (str_of_nat_go fuel n []) = n.
Proof.
  induction fuel as [|fuel IH]; intros n Hn; [lia|].
  cbn [str_of_nat_go].
  pose proof (Nat.div_mod_eq n 10) as Hdm.
  destruct (n / 10) as [|q] eqn:Hq.
  - unfold nat_of_str. cbn [foldl]. rewrite digit_value_digit. lia.
  - rewrite str_of_nat_go_acc, nat_of_str_snoc, digit_value_digit, IH; [lia|].
    assert (n / 10 < n) by (apply Nat.div_lt; lia). lia.
Qed.

(** Reading back the decimal rendering of [n] gives [n]. *)
Lemma nat_of_str_of_nat (n : nat) : nat_of_str (str_of_nat n) = n.
Proof. apply nat_of_str_go. lia. Qed.

Lemma str_of_nat_inj (m n : nat) : str_of_nat m = str_of_nat n -> m = n.
Proof.
  intros H. apply (f_equal nat_of_str) in H. by rewrite !nat_of_str_of_nat in H.
Qed.

End StringFacts.

(** ** The completion gateway *)

Section GatewayFacts.
Import Llm.

Lemma data_payload_Some (line p : pystr) :
  data_payload line = Some p <-> line = lit "data: " ++ p.
Proof.
  unfold data_payload.
  destruct (startswith line (lit "data: ")) eqn:Hs.
  - apply startswith_drop in Hs. change (length (lit "data: ")) with 6 in Hs.
    split.
    + intros [= <-]. done.
    + intros ->. by rewrite drop_app_length' by done.
  - split; [done |]. intros ->.
    assert (startswith (lit "data: " ++ p) (lit "data: ") = true) as Ht
      by (apply startswith_app; eauto).
    congruence.
Qed.

(** The terminal line is the data line whose payload is the marker. *)
Lemma terminal_line_payload (line : pystr) :
  data_payload line = Some (lit "[DONE]") <-> line = lit "data: [DONE]".
Proof. by rewrite data_payload_Some. Qed.

Lemma relay_terminal (post : list pystr) :
  relay (lit "data: [DONE]" :: post) = ([], true).
Proof. reflexivity. Qed.

(** A step of the loop, by the payload of the line. *)
Lemma relay_cons (line : pystr) (rest : list pystr) :
  relay (line :: rest) =
    match data_payload line with
    | Some data =>
        if str_eqb data (lit "[DONE]") then ([], true)
        else (data :: (relay rest).1, (relay rest).2)
    | None => relay rest
    end.
Proof.
  unfold data_payload. cbn [relay].
  destruct (startswith line _); [|done].
  destruct (str_eqb _ _); [done|]. by destruct (relay rest).
Qed.

Lemma relay_before_terminal (pre tail : list pystr) :
  lit "data: [DONE]" ∉ pre ->
  relay (pre ++ tail) = (omap data_payload pre ++ (relay tail).1, (relay tail).2).
Proof.
  induction pre as [|line pre IH]; intros Hpre.
  - cbn [omap list_omap app]. by destruct (relay tail).
  - apply not_elem_of_cons in Hpre as [Hline Hpre].
    rewrite <- app_comm_cons, relay_cons, (IH Hpre). cbn [omap list_omap].
    destruct (data_payload line) as [data|] eqn:Hd; [|done].
    destruct (str_eqb data (lit "[DONE]")) eqn:He; [|done].
    apply str_eqb_eq in He as ->.
    by apply terminal_line_payload in Hd.
Qed.

Lemma relay_skip (pre post : list pystr) (line : pystr) :
  startswith line (lit "data: ") = false ->
  relay (pre ++ line :: post) = relay (pre ++ post).
Proof.
  intros Hline. induction pre as [|l pre IH].
  - cbn [relay app]. by rewrite Hline.
  - rewrite <- !app_comm_cons, !relay_cons, IH. done.
Qed.

Lemma raise_for_status_ok (status : Z) :
  (200 <= status <= 299)%Z -> raise_for_status status = Return tt.
Proof.
  intros H. unfold raise_for_status.
  destruct (Z.leb_spec 200 status), (Z.leb_spec status 299); simpl; done || lia.
Qed.

Lemma raise_for_status_error (status : Z) :
  ~ (200 <= status <= 299)%Z ->
  raise_for_status status = Raise (HTTPStatusError status).
Proof.
  intros H. unfold raise_for_status.
  destruct (Z.leb_spec 200 status), (Z.leb_spec status 299); simpl; done || lia.
Qed.

(** C1. In streaming mode the gateway stops at the first line whose payload
    is the terminal marker [[DONE]], and what it has yielded by then is the
    payload of every data-prefixed line before it, in arrival order, each
    being the line without its ["data: "] prefix; a stream that carries no
    terminal line is relayed in the same way to its end. *)
Theorem stream_stops_at_terminal_marker
    (self : LLMClient) (messages : list Message) (temperature : number)
    (backend : Backend) (log : list Request) (response : StreamResponse)
    (pre : list pystr) :
  open_stream backend (build_request self messages true temperature)
    = Return response ->
  (200 <= s_status_code response <= 299)%Z ->
  lit "data: [DONE]" ∉ pre ->
  (forall post, s_lines response = pre ++ lit "data: [DONE]" :: post ->
     (chat_completion self messages true temperature backend log).1
     = {| yielded := omap data_payload pre; raised := None |})
  /\ (s_lines response = pre ->
      yielded (chat_completion self messages true temperature backend log).1
      = omap data_payload pre)
  /\ (forall line p,
        data_payload line = Some p <-> line = lit "data: " ++ p).
Proof.
  intros Hopen Hstatus Hpre. unfold chat_completion. cbn match.
  rewrite Hopen, (raise_for_status_ok _ Hstatus).
  split; [|split].
  - intros post ->. rewrite (relay_before_terminal _ _ Hpre), relay_terminal.
    cbn. by rewrite app_nil_r.
  - intros ->. rewrite <- (app_nil_r pre) at 1.
    rewrite (relay_before_terminal _ _ Hpre). cbn. by rewrite app_nil_r.
  - intros line p. apply data_payload_Some.
Qed.

Lemma stream_stops_at_terminal_marker_witness :
  (chat_completion local_client [] true (Dec 7 (-1))
     (streaming_backend 200
        [[]; lit "data: a"; lit ": ping"; lit "data: b";
         lit "data: [DONE]"; lit "data: c"] None) []).1
  = {| yielded := [lit "a"; lit "b"]; raised := None |}.
Proof.
  refine (proj1 (stream_stops_at_terminal_marker local_client [] (Dec 7 (-1))
            (streaming_backend 200 _ None) []
            _ [[]; lit "data: a"; lit ": ping"; lit "data: b"]
            eq_refl _ _) [lit "data: c"] eq_refl).
  - cbn. lia.
  - apply (bool_decide_unpack _). by vm_compute.
Defined.

(** C2, as the code behaves: a line that is not data-prefixed does not fail
    the request.  Here the backend sends an [event:] line, a blank line and
    one data line; the run yields the payload and ends without an error. *)
Lemma unframed_line_does_not_fail :
  startswith (lit "event: message") (lit "data: ") = false /\
  lit "event: message" <> lit "data: [DONE]" /\
  lit "event: message" <> lit "[DONE]" /\
  (chat_completion local_client [] true (Dec 7 (-1))
     (streaming_backend 200
        [lit "event: message"; lit "data: hello"; []] None) []).1
  = {| yielded := [lit "hello"]; raised := None |}.
Proof. by vm_compute. Qed.

(** C2, amended. In streaming mode a line that does not start with the data
    prefix is skipped: the run is the one the gateway would make had the
    backend not sent that line. *)
Theorem unframed_line_is_skipped
    (self : LLMClient) (messages : list Message) (temperature : number)
    (backend backend' : Backend) (log : list Request)
    (status : Z) (read_error : option exn)
    (pre post : list pystr) (line : pystr) :
  startswith line (lit "data: ") = false ->
  open_stream backend (build_request self messages true temperature)
    = Return {| s_status_code := status; s_lines := pre ++ line :: post;
                s_read_error := read_error |} ->
  open_stream backend' (build_request self messages true temperature)
    = Return {| s_status_code := status; s_lines := pre ++ post;
                s_read_error := read_error |} ->
  (chat_completion self messages true temperature backend log).1
  = (chat_completion self messages true temperature backend' log).1.
Proof.
  intros Hline Hopen Hopen'. unfold chat_completion. cbn match.
  rewrite Hopen, Hopen'. cbn [s_status_code s_lines s_read_error].
  by rewrite (relay_skip _ _ _ Hline).
Qed.

Lemma unframed_line_is_skipped_witness :
  (chat_completion local_client [] true (Dec 7 (-1))
     (streaming_backend 200 ([lit "data: a"] ++ lit ": ping" :: [lit "data: b"])
        None) []).1
  = (chat_completion local_client [] true (Dec 7 (-1))
       (streaming_backend 200 ([lit "data: a"] ++ [lit "data: b"]) None) []).1.
Proof.
  apply (unframed_line_is_skipped local_client [] (Dec 7 (-1))
           (streaming_backend 200 _ None) (streaming_backend 200 _ None)
           [] 200 None [lit "data: a"] [lit "data: b"] (lit ": ping")).
  - by vm_compute.
  - reflexivity.
  - reflexivity.
Defined.

Lemma messages_dict_role (msg : Message) :
  ({[ lit "role" := role msg; lit "content" := content msg ]} : gmap pystr pystr)
    !! lit "role" = Some (role msg).
Proof. apply lookup_insert_eq. Qed.

(** C3. The request sent to the backend carries the conversation with the
    default system message put in front when the conversation is empty or
    its first message does not have role ["system"], and the conversation as
    it is when its first message has role ["system"]; in both modes it is
    the one request sent. *)
Theorem system_prompt_prepended
    (self : LLMClient) (messages : list Message) (stream : bool)
    (temperature : number) (backend : Backend) (log : list Request) :
  exists request,
    (chat_completion self messages stream temperature backend log).2
      = log ++ [request]
    /\ p_messages (json_body request) =
         match messages with
         | [] => [system_message]
         | first :: _ =>
             if bool_decide (role first = lit "system")
             then messages_dict_of messages
             else system_message :: messages_dict_of messages
         end
    /\ system_message !! lit "role" = Some (lit "system")
    /\ system_message !! lit "content" = Some DEFAULT_SYSTEM_PROMPT.
Proof.
  exists (build_request self messages stream temperature).
  split; [|split; [|split]].
  - unfold chat_completion. cbn match. destruct stream.
    + destruct (open_stream _ _) as [response|]; [|done].
      destruct (raise_for_status _); [|done]. by destruct (relay _).
    + destruct (post _ _) as [response|]; [|done].
      by destruct (raise_for_status _).
  - cbn [build_request json_body p_messages].
    destruct messages as [|first rest]; [done|].
    cbn [messages_dict_of fmap list_fmap add_system_prompt].
    rewrite messages_dict_role.
    repeat case_bool_decide; congruence.
  - apply lookup_insert_eq.
  - unfold system_message. rewrite lookup_insert_ne by (by vm_compute).
    apply lookup_insert_eq.
Qed.

(** C4. With an empty context the prompt is the question itself. *)
Theorem rag_prompt_empty_context (question : pystr) :
  create_rag_prompt [] question = Return question.
Proof. reflexivity. Qed.

(** C6. In non-streaming mode the gateway sends one request; when the
    backend answers with a 2xx status the run yields the whole response text
    as its single value and ends normally; when the transport fails or the
    status is outside 2xx the run yields nothing and ends with that error. *)
Theorem non_streaming_single_response
    (self : LLMClient) (messages : list Message) (temperature : number)
    (backend : Backend) (log : list Request) :
  let request := build_request self messages false temperature in
  let run := (chat_completion self messages false temperature backend log).1 in
  (chat_completion self messages false temperature backend log).2
    = log ++ [request]
  /\ (forall response, post backend request = Return response ->
        (200 <= status_code response <= 299)%Z ->
        run = {| yielded := [text response]; raised := None |})
  /\ (forall response, post backend request = Return response ->
        ~ (200 <= status_code response <= 299)%Z ->
        run = {| yielded := [];
                 raised := Some (HTTPStatusError (status_code response)) |})
  /\ (forall e, post backend request = Raise e ->
        run = {| yielded := []; raised := Some e |}).
Proof.
  intros request run. subst request run. unfold chat_completion. cbn match.
  split; [|split; [|split]].
  - destruct (post _ _) as [response|]; [|done].
    by destruct (raise_for_status _).
  - intros response -> Hok. by rewrite (raise_for_status_ok _ Hok).
  - intros response -> Hbad. by rewrite (raise_for_status_error _ Hbad).
  - by intros e ->.
Qed.

Lemma non_streaming_single_response_witness :
  (chat_completion local_client [] false (Dec 7 (-1))
     (replying_backend 200 (lit "{}")) [])
  = ({| yielded := [lit "{}"]; raised := None |},
     [build_request local_client [] false (Dec 7 (-1))])
  /\ (chat_completion local_client [] false (Dec 7 (-1))
       (replying_backend 503 (lit "busy")) []).1
     = {| yielded := []; raised := Some (HTTPStatusError 503) |}
  /\ (chat_completion local_client [] false (Dec 7 (-1))
       unreachable_backend []).1
     = {| yielded := []; raised := Some TransportError |}.
Proof.
  split; [|split].
  - destruct (non_streaming_single_response local_client [] (Dec 7 (-1))
                (replying_backend 200 (lit "{}")) []) as (Hlog & Hok & _ & _).
    specialize (Hok _ eq_refl).
    apply injective_projections; [apply Hok; cbn; lia | apply Hlog].
  - destruct (non_streaming_single_response local_client [] (Dec 7 (-1))
                (replying_backend 503 (lit "busy")) []) as (_ & _ & Hbad & _).
    apply (Hbad _ eq_refl). cbn. lia.
  - destruct (non_streaming_single_response local_client [] (Dec 7 (-1))
                unreachable_backend []) as (_ & _ & _ & Hfail).
    apply (Hfail _ eq_refl).
Defined.

End GatewayFacts.

(** ** The prompt assembler *)

Section PromptFacts.
Import Llm.

(** The label and text the loop body makes for the item at position [i]. *)
Lemma context_part_content (i : nat) (item : ContextItem) (text : pystr) :
  item_content item = Some text ->
  context_part i item =
    Return (lit "[参考資料 " ++ str_of_nat i ++ lit ": "
            ++ format (source_filename item) ++ lit "]" ++ nl ++ text).
Proof. intros H. unfold context_part. by rewrite H. Qed.


(** The loop appends one part per item, in order, counting from [i]. *)
Lemma collect_parts_ok (context : list ContextItem) :
  forall (i : nat) (acc : list pystr),
  Forall has_content context ->
  exists parts,
    collect_parts i context acc = Return (acc ++ parts)
    /\ length parts = length context
    /\ forall k item, context !! k = Some item ->
         exists text, item_content item = Some text /\
           parts !! k =
             Some (lit "[参考資料 " ++ str_of_nat (i + k) ++ lit ": "
                   ++ format (source_filename item) ++ lit "]" ++ nl ++ text).
Proof.
  induction context as [|item rest IH]; intros i acc Hall.
  - exists []. cbn [collect_parts]. rewrite app_nil_r. by repeat split.
  - apply Forall_cons in Hall as [[text Htext] Hrest].
    destruct (IH (S i) (acc ++ [lit "[参考資料 " ++ str_of_nat i ++ lit ": "
                   ++ format (source_filename item) ++ lit "]" ++ nl ++ text])
                Hrest) as (parts & Hrun & Hlen & Hparts).
    eexists (_ :: parts). cbn [collect_parts].
    rewrite (context_part_content _ _ _ Htext), Hrun, <- app_assoc.
    split; [done|]. split; [cbn [length]; by rewrite Hlen|].
    intros [|k] it Hk.
    + injection Hk as <-. exists text. by rewrite Nat.add_0_r.
    + destruct (Hparts k it Hk) as (t & Ht & Hp). exists t.
      by rewrite Nat.add_succ_r.
Qed.


Lemma source_filename_present (item : ContextItem) (md : gmap pystr scalar)
    (name : pystr) :
  item_metadata item = Some md ->
  md !! lit "filename" = Some (SStr name) ->
  format (source_filename item) = name.
Proof.
  intros Hmd Hname. unfold source_filename. rewrite Hmd.
  change (default ∅ (Some md)) with md. by rewrite Hname.
Qed.

Lemma source_filename_absent (item : ContextItem) :
  item_metadata item = None ->
  format (source_filename item) = lit "不明".
Proof. intros Hmd. unfold source_filename. by rewrite Hmd. Qed.

(** C5. For a non-empty context whose items carry their text, the prompt is
    the question, a blank line, the heading of the reference section and
    then one part per context item, in the order given and separated by
    blank lines; the part of the item at 0-based index [k] is its label,
    made of the decimal position [k+1] and the source filename, followed on
    the next line by the item's text.  The prompt depends on nothing but
    the two arguments. *)
Theorem rag_prompt_reference_section
    (context : list ContextItem) (question : pystr) :
  context <> [] ->
  Forall has_content context ->
  exists parts,
    create_rag_prompt context question =
      Return (question ++ nl ++ nl ++ lit "参考資料:" ++ nl
              ++ join (nl ++ nl) parts)
    /\ length parts = length context
    /\ (forall k item, context !! k = Some item ->
         exists text name,
           item_content item = Some text
           /\ parts !! k =
               Some (lit "[参考資料 " ++ str_of_nat (S k) ++ lit ": " ++ name
                     ++ lit "]" ++ nl ++ text)
           /\ name = format (source_filename item)
           /\ (forall md f, item_metadata item = Some md ->
                 md !! lit "filename" = Some (SStr f) -> name = f))
    /\ (forall context' question',
         context' = context -> question' = question ->
         create_rag_prompt context' question'
         = create_rag_prompt context question).
Proof.
  intros Hne Hall.
  destruct (collect_parts_ok context 1 [] Hall) as (parts & Hrun & Hlen & Hparts).
  exists parts. split; [|split; [done|split]].
  - destruct context as [|item rest]; [done|].
    unfold create_rag_prompt. by rewrite Hrun.
  - intros k item Hk. destruct (Hparts k item Hk) as (text & Htext & Hp).
    exists text, (format (source_filename item)).
    repeat split; [done | done |].
    intros md f Hmd Hf. by apply (source_filename_present item md).
  - by intros ? ? -> ->.
Qed.

Lemma rag_prompt_reference_section_witness :
  exists parts,
    create_rag_prompt sample_context (lit "What is spinach?") =
      Return (lit "What is spinach?" ++ nl ++ nl ++ lit "参考資料:" ++ nl
              ++ join (nl ++ nl) parts)
    /\ length parts = 2.
Proof.
  assert (sample_context <> []) as Hne by done.
  assert (Forall has_content sample_context) as Hall
    by (repeat constructor; by eexists).
  destruct (rag_prompt_reference_section sample_context
              (lit "What is spinach?") Hne Hall) as (parts & Hrun & Hlen & _).
  exists parts. split; [exact Hrun | exact Hlen].
Defined.

(** The prompt of the two sample items, written out. *)
Example rag_prompt_sample :
  create_rag_prompt sample_context (lit "What is spinach?") =
    Return (lit "What is spinach?" ++ nl ++ nl ++ lit "参考資料:" ++ nl ++
            lit "[参考資料 1: greens.md]" ++ nl ++ lit "Spinach is a leafy green."
            ++ nl ++ nl ++
            lit "[参考資料 2: 不明]" ++ nl ++ lit "It is rich in iron.").
Proof. by vm_compute. Qed.

End PromptFacts.

(** ** Runtime settings *)

Section SettingsFacts.
Import Main.

Lemma keeps_fixed_ret {A} (a : A) : keeps_fixed (mret a).
Proof. by intros g. Qed.

Lemma keeps_fixed_lift {A} (r : except A) : keeps_fixed (lift r).
Proof. by intros g. Qed.

Lemma keeps_fixed_read {A} (f : Globals -> A) : keeps_fixed (read f).
Proof. by intros g. Qed.

Lemma keeps_fixed_modify (f : Globals -> Globals) :
  (forall g, fixed_fields (settings (f g)) = fixed_fields (settings g)) ->
  keeps_fixed (modify f).
Proof. intros Hf g. apply Hf. Qed.

Lemma keeps_fixed_bind {A B} (m : SE Globals A) (k : A -> SE Globals B) :
  keeps_fixed m -> (forall a, keeps_fixed (k a)) -> keeps_fixed (m ≫= k).
Proof.
  intros Hm Hk g. unfold mbind, SE_bind. specialize (Hm g).
  destruct (m g) as [[a|e] g']; [|done].
  cbn [snd] in Hm. by rewrite (Hk a g').
Qed.

Create HintDb frame.
#[local] Hint Resolve keeps_fixed_ret keeps_fixed_lift keeps_fixed_read : frame.

Ltac frame_step :=
  first
    [ apply keeps_fixed_bind; [|intros ?]
    | apply keeps_fixed_modify; by intros []
    | match goal with |- keeps_fixed (if ?b then _ else _) => destruct b end
    | solve [auto with frame] ].

Lemma update_llm_keeps_fixed (update_data : gmap pystr json)
    (updated_fields : list pystr) :
  keeps_fixed (update_llm update_data updated_fields).
Proof.
  unfold update_llm. destruct (update_data !! lit "llm"); repeat frame_step.
Qed.

Lemma update_rag_keeps_fixed (update_data : gmap pystr json)
    (updated_fields : list pystr) :
  keeps_fixed (update_rag update_data updated_fields).
Proof.
  unfold update_rag. destruct (update_data !! lit "rag"); repeat frame_step.
Qed.

(** C9. Whatever the request body, and whether the handler answers with
    success or with the 500 of its [except] arm, every attribute of
    [settings] other than the completion endpoint URL, the RAG top-K and the
    RAG similarity threshold has after the call the value it had before. *)
Theorem update_settings_frame (update_data : gmap pystr json) (g : Globals) :
  let s := settings g in
  let s' := settings (update_settings update_data g).2 in
  backend_port s' = backend_port s
  /\ backend_host s' = backend_host s
  /\ lm_studio_model s' = lm_studio_model s
  /\ chroma_persist_dir s' = chroma_persist_dir s
  /\ chroma_collection_name s' = chroma_collection_name s
  /\ embedding_model s' = embedding_model s
  /\ embedding_device s' = embedding_device s
  /\ chunk_size s' = chunk_size s
  /\ chunk_overlap s' = chunk_overlap s
  /\ cors_origins s' = cors_origins s.
Proof.
  intros s s'.
  assert (fixed_fields s' = fixed_fields s) as Hfixed.
  { subst s s'. unfold update_settings.
    pose proof (keeps_fixed_bind (update_llm update_data [])
                  (update_rag update_data)
                  (update_llm_keeps_fixed update_data [])
                  (update_rag_keeps_fixed update_data) g) as H.
    by destruct ((update_llm update_data [] ≫= update_rag update_data) g)
      as [[fields|e] g']. }
  unfold fixed_fields in Hfixed. by simplify_eq.
Qed.

(** The three runtime attributes do change. *)
Example update_settings_changes_runtime_fields :
  let body : gmap pystr json :=
    {[ lit "llm" := JObj {[ lit "base_url" := JStr (lit "http://gpu:9000/v1") ]};
       lit "rag" := JObj {[ lit "top_k" := JNum (Int 5);
                            lit "similarity_threshold" := JNum (Dec 75 (-2)) ]} ]} in
  let '(response, g) := update_settings body startup in
  response = Updated [lit "llm.base_url"; lit "rag.top_k";
                      lit "rag.similarity_threshold"]
  /\ lm_studio_base_url (settings g) = JStr (lit "http://gpu:9000/v1")
  /\ llm_client_base_url g = JStr (lit "http://gpu:9000/v1")
  /\ rag_top_k (settings g) = JNum (Int 5)
  /\ rag_similarity_threshold (settings g) = JNum (Dec 75 (-2)).
Proof. by vm_compute. Qed.

(** A body whose ["rag"] entry is not an object: the URL assigned before the
    [TypeError] stays assigned, and the answer is the 500. *)
Example update_settings_partial :
  let body : gmap pystr json :=
    {[ lit "llm" := JObj {[ lit "base_url" := JStr (lit "http://gpu:9000/v1") ]};
       lit "rag" := JNum (Int 1) ]} in
  let '(response, g) := update_settings body startup in
  response = ServerError TypeError
  /\ lm_studio_base_url (settings g) = JStr (lit "http://gpu:9000/v1")
  /\ rag_top_k (settings g) = JNum (Int 3).
Proof. by vm_compute. Qed.

End SettingsFacts.

(** ** Document routes *)

Section DocumentFacts.
Import Documents.

Context {embedding vectordb : Type}.
Variable extract_text_from_file :
  list N -> pystr -> option pystr -> except pystr.
Variable clean_text : pystr -> except pystr.
Variable create_chunks_with_metadata :
  pystr -> option pystr -> pystr -> except (list pystr * list pystr * list metadata).
Variable encode_documents : list pystr -> except (list embedding).
Variable add_documents :
  list pystr -> list pystr -> list embedding -> list metadata ->
  vectordb -> except unit * vectordb.
Variable delete_by_filename : pystr -> vectordb -> except Z * vectordb.
Variable str_exn : exn -> pystr.

Local Abbreviation upload_document' :=
  (upload_document extract_text_from_file clean_text
     create_chunks_with_metadata encode_documents add_documents str_exn).
Local Abbreviation upload_text' :=
  (upload_text clean_text create_chunks_with_metadata encode_documents
     add_documents str_exn).
Local Abbreviation delete_document' :=
  (delete_document (embedding := embedding) delete_by_filename str_exn).

Ltac run_handler :=
  unfold upload_document, upload_text, delete_document, guard, raise, lift,
    call, call_db, mbind, SE_bind, mret, SE_ret.

(** The handler's run once the store's delete has reported a count. *)
Lemma delete_document_run
    (name : pystr) (w : World embedding vectordb) (count : Z) (d' : vectordb) :
  delete_by_filename name (db w) = (Return count, d') ->
  delete_document' name w =
    (if (count =? 0)%Z
     then Raise (HTTPException 404 (lit "Document not found: " ++ name))
     else Return {| d_success := true;
                    d_message := lit "Successfully deleted " ++ name;
                    chunks_deleted := count |},
     {| db := d'; trace := trace w ++ [CallDelete name] |}).
Proof.
  intros Hdel. run_handler. rewrite Hdel. by destruct (count =? 0)%Z.
Qed.

(** C7. When the store's delete-by-filename reports a count, the handler
    returns that count if it is positive and fails with a 404 exactly when
    it is zero; the store is left as the delete left it. *)
Theorem delete_document_count_or_404
    (name : pystr) (w : World embedding vectordb) (count : Z) (d' : vectordb) :
  delete_by_filename name (db w) = (Return count, d') ->
  let result := (delete_document' name w).1 in
  ((0 < count)%Z ->
     result = Return {| d_success := true;
                        d_message := lit "Successfully deleted " ++ name;
                        chunks_deleted := count |})
  /\ ((exists detail, result = Raise (HTTPException 404 detail)) <-> count = 0%Z)
  /\ (delete_document' name w).2
     = {| db := d'; trace := trace w ++ [CallDelete name] |}.
Proof.
  intros Hdel. rewrite (delete_document_run _ _ _ _ Hdel). cbn [fst snd].
  destruct (Z.eqb_spec count 0) as [->|Hne].
  - split; [lia|]. split; [|done]. split; [done | eauto].
  - split; [done|]. split; [|done]. split; [by intros [? ?] | done].
Qed.

(** When the store's delete raises instead, the handler answers 500. *)
Lemma delete_document_store_error
    (name : pystr) (w : World embedding vectordb) (e : exn) (d' : vectordb) :
  delete_by_filename name (db w) = (Raise e, d') ->
  (forall code detail, e <> HTTPException code detail) ->
  (delete_document' name w).1
  = Raise (HTTPException 500 (lit "Failed to delete document: " ++ str_exn e)).
Proof.
  intros Hdel He. run_handler. rewrite Hdel. cbn [fst snd].
  destruct e; try done. by destruct (He status_code detail).
Qed.

(** C8. An upload, of raw text or of a file, whose cleaned text is empty or
    made of whitespace only fails with the 400 of the emptiness check; up to
    that point the handler has called only the text extraction and cleaning,
    so nothing was chunked, embedded or added, and the store is as it
    was. *)
Theorem blank_upload_rejected_before_ingestion :
  (forall (request : TextUploadRequest) (w : World embedding vectordb)
          (text : pystr),
     clean_text (req_text request) = Return text ->
     blank text ->
     upload_text' request w =
       (Raise (HTTPException 400 (lit "テキストが空です")),
        {| db := db w;
           trace := trace w ++ [CallClean (req_text request)] |}))
  /\ (forall (file : UploadFile) (w : World embedding vectordb)
             (file_type raw text : pystr),
       file_type_of file = Return file_type ->
       extract_text_from_file (file_bytes file) file_type (filename file)
         = Return raw ->
       clean_text raw = Return text ->
       blank text ->
       upload_document' file w =
         (Raise (HTTPException 400
                   (lit "Failed to extract text from file or file is empty")),
          {| db := db w;
             trace := trace w ++
               [CallExtract (file_bytes file) file_type (filename file);
                CallClean raw] |})).
Proof.
  split.
  - intros request w text Hclean Hblank%truthy_strip.
    run_handler. rewrite Hclean, Hblank. done.
  - intros file w file_type raw text Htype Hextract Hclean Hblank%truthy_strip.
    run_handler. rewrite Htype, Hextract. cbn [db trace].
    rewrite Hclean, Hblank. cbn [negb db trace]. by rewrite <- app_assoc.
Qed.

Lemma stored_filename_appends (name : pystr) :
  endswith name (lit ".md") = false ->
  endswith name (lit ".txt") = false ->
  stored_filename name = name ++ lit ".md".
Proof.
  intros Hmd Htxt. unfold stored_filename, endswith_any. cbn [existsb].
  by rewrite Hmd, Htxt.
Qed.

Lemma stored_filename_keeps (name : pystr) :
  endswith name (lit ".md") = true \/ endswith name (lit ".txt") = true ->
  stored_filename name = name.
Proof.
  intros H. unfold stored_filename, endswith_any. cbn [existsb].
  destruct H as [-> | ->]; [done|]. by rewrite orb_true_r.
Qed.

Lemma append_md_differs (name : pystr) : name ++ lit ".md" <> name.
Proof.
  intros H. apply (f_equal length) in H. rewrite length_app in H.
  change (length (lit ".md")) with 3 in H. lia.
Qed.

(** [endswith] is the suffix test. *)
Lemma endswith_app (s p : pystr) :
  endswith s p = true <-> exists r, s = r ++ p.
Proof.
  unfold endswith. rewrite andb_true_iff, Nat.leb_le, str_eqb_eq. split.
  - intros [Hlen Hdrop]. exists (take (length s - length p) s).
    pose proof (take_drop (length s - length p) s) as H.
    by rewrite Hdrop in H.
  - intros [r ->]. rewrite length_app. split; [lia|].
    replace (length r + length p - length p) with (length r) by lia.
    by rewrite drop_app_length.
Qed.

(** C10. A raw-text upload with non-blank text makes its chunks under, and
    adds to the store what was made under, the name [stored_filename] gives:
    the supplied filename followed by [.md], which differs from the
    supplied one, when that ends in neither [.md] nor [.txt], and the
    supplied filename itself when it ends in one of them. *)
Theorem text_upload_stored_filename
    (request : TextUploadRequest) (w : World embedding vectordb)
    (text : pystr) :
  clean_text (req_text request) = Return text ->
  ~ blank text ->
  let name := req_filename request in
  let stored := stored_filename name in
  (endswith name (lit ".md") = false -> endswith name (lit ".txt") = false ->
     stored = name ++ lit ".md" /\ stored <> name)
  /\ (endswith name (lit ".md") = true \/ endswith name (lit ".txt") = true ->
      stored = name)
  /\ (forall ids chunks metadatas embeddings d',
        create_chunks_with_metadata text (Some stored) (lit "markdown")
          = Return (ids, chunks, metadatas) ->
        encode_documents chunks = Return embeddings ->
        add_documents ids chunks embeddings metadatas (db w) = (Return tt, d') ->
        upload_text' request w =
          (Return {| success := true;
                     message := lit "テキストをRAGに追加しました: " ++ stored;
                     document_count := 1;
                     chunk_count := Z.of_nat (length chunks) |},
           {| db := d';
              trace := trace w ++
                [CallClean (req_text request);
                 CallChunk text (Some stored) (lit "markdown");
                 CallEncode chunks;
                 CallAdd ids chunks embeddings metadatas] |})).
Proof.
  intros Hclean Hblank name stored. subst name stored.
  split; [|split].
  - intros Hmd Htxt. rewrite (stored_filename_appends _ Hmd Htxt).
    split; [done | apply append_md_differs].
  - apply stored_filename_keeps.
  - intros ids chunks metadatas embeddings d' Hchunk Hencode Hadd.
    assert (truthy (strip text) = true) as Htruthy.
    { destruct (truthy (strip text)) eqn:Ht; [done|].
      by apply truthy_strip in Ht. }
    run_handler. rewrite Hclean, Htruthy. cbn [negb db trace].
    rewrite Hchunk. cbn [db trace]. rewrite Hencode. cbn [db trace].
    rewrite Hadd. by rewrite <- !app_assoc.
Qed.

End DocumentFacts.

(** ** The routes over the sample store *)

Section SampleStoreFacts.
Import Documents.

Lemma store_delete_count (name : pystr) (store : list ChunkRecord) :
  (store_delete_by_filename name store).1
  = Return (Z.of_nat (length (filter (fun r => has_filename name r = true) store))).
Proof. reflexivity. Qed.

(** Over the store of the spec, the 404 is the answer exactly when no chunk
    carries the filename, and nothing is removed then. *)
Lemma filter_none (name : pystr) (store : list ChunkRecord) :
  length (filter (fun r => has_filename name r = true) store) = 0
  <-> Forall (fun r => has_filename name r = false) store.
Proof.
  induction store as [|r store IH]; [by split; [constructor|]|].
  rewrite filter_cons, Forall_cons, <- IH.
  case_decide as Hr.
  - cbn [length]. rewrite Hr. split; [lia | by intros [? _]].
  - apply not_true_is_false in Hr. rewrite Hr. tauto.
Qed.

Lemma delete_document_not_found (name : pystr)
    (w : World (list Z) (list ChunkRecord)) :
  (exists detail,
     (sample_delete_document name w).1 = Raise (HTTPException 404 detail))
  <-> Forall (fun r => has_filename name r = false) (db w).
Proof.
  unfold sample_delete_document.
  rewrite (delete_document_run store_delete_by_filename no_message
             name w _ _ eq_refl), <- filter_none. cbn [fst].
  destruct (Z.eqb_spec (Z.of_nat (length
              (filter (fun r => has_filename name r = true) (db w)))) 0)
    as [Heq|Hne].
  - split; [lia | eauto].
  - split; [by intros [? ?] | lia].
Qed.

Lemma delete_document_count_or_404_witness :
  (sample_delete_document (lit "greens.md") stocked_world).1
  = Return {| d_success := true;
              d_message := lit "Successfully deleted greens.md";
              chunks_deleted := 2 |}
  /\ (exists detail,
        (sample_delete_document (lit "greens") stocked_world).1
        = Raise (HTTPException 404 detail)).
Proof.
  split.
  - assert (store_delete_by_filename (lit "greens.md") (db stocked_world)
            = (Return 2%Z,
               [sample_record (lit "roots.md") 0 (lit "Carrots are roots.")]))
      as Hdel by (by vm_compute).
    destruct (delete_document_count_or_404 (embedding := list Z)
                store_delete_by_filename no_message
                (lit "greens.md") stocked_world _ _ Hdel) as (Hcount & _ & _).
    apply Hcount. lia.
  - assert (store_delete_by_filename (lit "greens") (db stocked_world)
            = (Return 0%Z, db stocked_world)) as Hdel by (by vm_compute).
    destruct (delete_document_count_or_404 (embedding := list Z)
                store_delete_by_filename no_message
                (lit "greens") stocked_world _ _ Hdel) as (_ & H404 & _).
    by apply H404.
Defined.

Lemma blank_upload_rejected_before_ingestion_witness :
  sample_upload_text {| req_text := lit "  　"; req_filename := lit "notes" |}
    stocked_world
  = (Raise (HTTPException 400 (lit "テキストが空です")),
     {| db := db stocked_world; trace := [CallClean (lit "  　")] |})
  /\ sample_upload_document
       {| filename := Some (lit "notes.txt"); content_type := None;
          file_bytes := [32; 10; 9]%N |} stocked_world
     = (Raise (HTTPException 400
                 (lit "Failed to extract text from file or file is empty")),
        {| db := db stocked_world;
           trace := [CallExtract [32; 10; 9]%N (lit "txt") (Some (lit "notes.txt"));
                     CallClean [32; 10; 9]%N] |}).
Proof.
  destruct (blank_upload_rejected_before_ingestion (embedding := list Z)
              (vectordb := list ChunkRecord) text_of_bytes keep_text one_chunk
              embed_lengths store_add no_message) as [Htext Hfile].
  split.
  - apply (Htext {| req_text := lit "  　"; req_filename := lit "notes" |}
             stocked_world (lit "  　") eq_refl).
    apply strip_blank. by vm_compute.
  - apply (Hfile {| filename := Some (lit "notes.txt"); content_type := None;
                    file_bytes := [32; 10; 9]%N |}
             stocked_world (lit "txt") [32; 10; 9]%N [32; 10; 9]%N).
    + by vm_compute.
    + reflexivity.
    + reflexivity.
    + apply strip_blank. by vm_compute.
Defined.

Lemma text_upload_stored_filename_witness :
  stored_filename (lit "notes") = lit "notes.md"
  /\ stored_filename (lit "notes") <> lit "notes"
  /\ stored_filename (lit "notes.txt") = lit "notes.txt"
  /\ (sample_upload_text {| req_text := lit "hello"; req_filename := lit "notes" |}
        empty_world).2
     = {| db := [ {| rec_id := lit "notes.md_0";
                     rec_document := lit "hello";
                     rec_embedding := [5%Z];
                     rec_metadata :=
                       {[ lit "filename" := SStr (lit "notes.md");
                          lit "file_type" := SStr (lit "markdown");
                          lit "chunk_index" := SInt 0;
                          lit "char_count" := SInt 5 ]} |} ];
          trace := [ CallClean (lit "hello");
                     CallChunk (lit "hello") (Some (lit "notes.md")) (lit "markdown");
                     CallEncode [lit "hello"];
                     CallAdd [lit "notes.md_0"] [lit "hello"] [[5%Z]]
                       [ {[ lit "filename" := SStr (lit "notes.md");
                            lit "file_type" := SStr (lit "markdown");
                            lit "chunk_index" := SInt 0;
                            lit "char_count" := SInt 5 ]} ] ] |}.
Proof.
  assert (~ blank (lit "hello")) as Hnb.
  { intros H%strip_blank. by vm_compute in H. }
  destruct (text_upload_stored_filename (embedding := list Z)
              (vectordb := list ChunkRecord) keep_text one_chunk embed_lengths
              store_add no_message
              {| req_text := lit "hello"; req_filename := lit "notes" |}
              empty_world (lit "hello") eq_refl Hnb) as (Happend & _ & Hrun).
  destruct (text_upload_stored_filename (embedding := list Z)
              (vectordb := list ChunkRecord) keep_text one_chunk embed_lengths
              store_add no_message
              {| req_text := lit "hello"; req_filename := lit "notes.txt" |}
              empty_world (lit "hello") eq_refl Hnb) as (_ & Hkeep & _).
  cbn [req_filename] in *.
  destruct Happend as [Hmd Hne]; [by vm_compute | by vm_compute |].
  split; [by rewrite Hmd; vm_compute|]. split; [done|].
  split; [apply Hkeep; right; by vm_compute|].
  unfold sample_upload_text.
  erewrite Hrun; [| by vm_compute | by vm_compute | by vm_compute].
  by vm_compute.
Defined.

(** The chunks of a text uploaded as [notes] are grouped under [notes.md]:
    deleting by the name the caller supplied finds nothing, deleting by the
    stored name removes the chunk. *)
Example uploaded_text_is_found_under_stored_name :
  let w := (sample_upload_text
              {| req_text := lit "hello"; req_filename := lit "notes" |}
              empty_world).2 in
  (sample_delete_document (lit "notes") w).1
    = Raise (HTTPException 404 (lit "Document not found: notes"))
  /\ (sample_delete_document (lit "notes.md") w).1
    = Return {| d_success := true;
                d_message := lit "Successfully deleted notes.md";
                chunks_deleted := 1 |}.
Proof. by vm_compute. Qed.

End SampleStoreFacts.

(** * Further properties *)

(** ** The gateway: failures and what a stream can yield *)

Section GatewayFailures.
Import Llm.

Lemma relay_events (lines : list pystr) (event : pystr) :
  event ∈ (relay lines).1 ->
  lit "data: " ++ event ∈ lines /\ event <> lit "[DONE]".
Proof.
  induction lines as [|line rest IH]; [by intros ?%elem_of_nil|].
  rewrite relay_cons.
  destruct (data_payload line) as [data|] eqn:Hdata.
  - apply data_payload_Some in Hdata as ->.
    destruct (str_eqb data (lit "[DONE]")) eqn:Hdone;
      [by intros ?%elem_of_nil|].
    apply str_eqb_neq in Hdone. cbn [fst].
    intros [->|Hin]%elem_of_cons.
    + split; [apply list_elem_of_here | done].
    + destruct (IH Hin). split; [by apply list_elem_of_further | done].
  - intros Hin. destruct (IH Hin). split; [by apply list_elem_of_further | done].
Qed.

(** X1. A stream that breaks before any terminal line: the payloads of the
    data lines received are all yielded, and then the run ends with the
    transport error. *)
Theorem stream_broken_after_partial_delivery
    (self : LLMClient) (messages : list Message) (temperature : number)
    (backend : Backend) (log : list Request) (response : StreamResponse)
    (e : exn) :
  open_stream backend (build_request self messages true temperature)
    = Return response ->
  (200 <= s_status_code response <= 299)%Z ->
  lit "data: [DONE]" ∉ s_lines response ->
  s_read_error response = Some e ->
  (chat_completion self messages true temperature backend log).1
  = {| yielded := omap data_payload (s_lines response); raised := Some e |}.
Proof.
  intros Hopen Hstatus Hlines Herr. unfold chat_completion. cbn match.
  rewrite Hopen, (raise_for_status_ok _ Hstatus).
  rewrite <- (app_nil_r (s_lines response)) at 1.
  rewrite (relay_before_terminal _ _ Hlines). cbn [relay fst snd].
  by rewrite app_nil_r, Herr.
Qed.

Lemma stream_broken_after_partial_delivery_witness :
  (chat_completion local_client [] true (Dec 7 (-1))
     (streaming_backend 200 [lit "data: a"; []; lit "data: b"]
        (Some TransportError)) []).1
  = {| yielded := [lit "a"; lit "b"]; raised := Some TransportError |}.
Proof.
  refine (stream_broken_after_partial_delivery local_client [] (Dec 7 (-1))
            (streaming_backend 200 _ (Some TransportError)) [] _ TransportError
            eq_refl _ _ eq_refl).
  - cbn. lia.
  - apply (bool_decide_unpack _). by vm_compute.
Defined.

(** X2. A streaming request the backend refuses, by a failure to connect or
    by a status outside 2xx, yields no event and ends with that error,
    whatever lines the refused response carries; the request was sent
    once. *)
Theorem stream_refused_yields_nothing
    (self : LLMClient) (messages : list Message) (temperature : number)
    (backend : Backend) (log : list Request) :
  let request := build_request self messages true temperature in
  let out := chat_completion self messages true temperature backend log in
  (forall e, open_stream backend request = Raise e ->
     out = ({| yielded := []; raised := Some e |}, log ++ [request]))
  /\ (forall response, open_stream backend request = Return response ->
       ~ (200 <= s_status_code response <= 299)%Z ->
       out = ({| yielded := [];
                 raised := Some (HTTPStatusError (s_status_code response)) |},
              log ++ [request])).
Proof.
  intros request out. subst request out. unfold chat_completion. cbn match.
  split.
  - by intros e ->.
  - intros response -> Hbad. by rewrite (raise_for_status_error _ Hbad).
Qed.

Lemma stream_refused_yields_nothing_witness :
  chat_completion local_client [] true (Dec 7 (-1)) unreachable_backend []
  = ({| yielded := []; raised := Some TransportError |},
     [build_request local_client [] true (Dec 7 (-1))])
  /\ chat_completion local_client [] true (Dec 7 (-1))
       (streaming_backend 404 [lit "data: not for you"] None) []
     = ({| yielded := []; raised := Some (HTTPStatusError 404) |},
        [build_request local_client [] true (Dec 7 (-1))]).
Proof.
  split.
  - apply (proj1 (stream_refused_yields_nothing local_client [] (Dec 7 (-1))
                    unreachable_backend []) TransportError eq_refl).
  - apply (proj2 (stream_refused_yields_nothing local_client [] (Dec 7 (-1))
                    (streaming_backend 404 [lit "data: not for you"] None) [])
             _ eq_refl).
    cbn. lia.
Defined.

(** X3. Whatever the backend sends, every event a streaming run yields is
    the payload of a data line of the response, and none is the terminal
    marker. *)
Theorem stream_events_are_data_payloads
    (self : LLMClient) (messages : list Message) (temperature : number)
    (backend : Backend) (log : list Request) (event : pystr) :
  event ∈ yielded (chat_completion self messages true temperature backend log).1 ->
  exists response,
    open_stream backend (build_request self messages true temperature)
      = Return response
    /\ lit "data: " ++ event ∈ s_lines response
    /\ event <> lit "[DONE]".
Proof.
  unfold chat_completion. cbn match.
  destruct (open_stream _ _) as [response|e]; [|by intros ?%elem_of_nil].
  destruct (raise_for_status _); [|by intros ?%elem_of_nil].
  intros Hin. exists response. split; [done|].
  apply relay_events. by destruct (relay (s_lines response)).
Qed.

Lemma stream_events_are_data_payloads_witness :
  exists response,
    open_stream (streaming_backend 200 [lit ": ping"; lit "data: a"] None)
      (build_request local_client [] true (Dec 7 (-1))) = Return response
    /\ lit "data: " ++ lit "a" ∈ s_lines response
    /\ lit "a" <> lit "[DONE]".
Proof.
  apply (stream_events_are_data_payloads local_client [] (Dec 7 (-1))
           (streaming_backend 200 [lit ": ping"; lit "data: a"] None) []).
  apply (bool_decide_unpack _). by vm_compute.
Defined.

End GatewayFailures.

(** ** The prompt assembler: items without text *)

Section PromptFailures.
Import Llm.




End PromptFailures.

(** ** Runtime settings: what an update does *)

Section SettingsUpdates.
Import Main.

Lemma keeps_ret {T A} (proj : Globals -> T) (a : A) : keeps proj (mret a).
Proof. by intros g. Qed.

Lemma keeps_lift {T A} (proj : Globals -> T) (r : except A) :
  keeps proj (lift r).
Proof. by intros g. Qed.

Lemma keeps_modify {T} (proj : Globals -> T) (f : Globals -> Globals) :
  (forall g, proj (f g) = proj g) -> keeps proj (modify f).
Proof. intros Hf g. apply Hf. Qed.

Lemma keeps_bind {T A B} (proj : Globals -> T)
    (m : SE Globals A) (k : A -> SE Globals B) :
  keeps proj m -> (forall a, keeps proj (k a)) -> keeps proj (m ≫= k).
Proof.
  intros Hm Hk g. unfold mbind, SE_bind. specialize (Hm g).
  destruct (m g) as [[a|e] g']; [|done].
  cbn [snd] in Hm. by rewrite (Hk a g').
Qed.

#[local] Arguments lit : simpl never.

Ltac run_se :=
  unfold mbind, SE_bind, mret, SE_ret, lift, modify, read, raise;
  cbn [py_in subscript fst snd].

Ltac keeps_step :=
  first
    [ apply keeps_bind; [|intros ?]
    | apply keeps_modify; by intros []
    | match goal with |- keeps _ (if ?b then _ else _) => destruct b end
    | apply keeps_ret
    | apply keeps_lift ].

(** The RAG half of an update leaves both copies of the URL alone. *)
Lemma update_rag_keeps_urls (update_data : gmap pystr json)
    (updated_fields : list pystr) :
  keeps (fun g => (lm_studio_base_url (settings g), llm_client_base_url g))
    (update_rag update_data updated_fields).
Proof.
  unfold update_rag. destruct (update_data !! lit "rag"); repeat keeps_step.
Qed.

(** The LLM half either changes nothing or sets both copies of the URL. *)
Lemma update_llm_state (update_data : gmap pystr json)
    (updated_fields : list pystr) (g : Globals) :
  (update_llm update_data updated_fields g).2 = g
  \/ exists v,
       (update_llm update_data updated_fields g).2
       = {| settings := set_lm_studio_base_url v (settings g);
            llm_client_base_url := v |}.
Proof.
  unfold update_llm. destruct (update_data !! lit "llm") as [llm|]; [|by left].
  destruct llm as [| | |s|items|fields]; run_se; try by left.
  - destruct (contains s _); by left.
  - destruct (existsb _ items); by left.
  - case_bool_decide as Hin; [|by left].
    destruct (fields !! lit "base_url") as [v|]; [|by left].
    right. by exists v.
Qed.

(** X5. The client's URL follows the settings' URL: if the two agree before
    an update they agree after it, for every request body and whether the
    handler answers with success or with its 500. *)
Theorem update_settings_keeps_client_synced
    (update_data : gmap pystr json) (g : Globals) :
  synced g -> synced (update_settings update_data g).2.
Proof.
  intros Hsync.
  assert (synced (update_llm update_data [] g).2) as Hllm.
  { destruct (update_llm_state update_data [] g) as [->|[v ->]]; done. }
  unfold update_settings, mbind, SE_bind.
  destruct (update_llm update_data [] g) as [[fields|e] g1]; [|done].
  pose proof (update_rag_keeps_urls update_data fields g1) as Hrag.
  destruct (update_rag update_data fields g1) as [[fields'|e] g2];
    cbn [snd] in *; unfold synced in *; injection Hrag as H1 H2; congruence.
Qed.

Lemma update_settings_keeps_client_synced_witness :
  synced (update_settings
            {[ lit "llm" := JObj {[ lit "base_url" := JStr (lit "http://gpu:9000/v1") ]};
               lit "rag" := JNull ]} startup).2.
Proof. by apply update_settings_keeps_client_synced. Defined.

Lemma update_llm_absent (update_data : gmap pystr json)
    (updated_fields : list pystr) (g : Globals) :
  update_data !! lit "llm" = None ->
  update_llm update_data updated_fields g = (Return updated_fields, g).
Proof. intros H. unfold update_llm. by rewrite H. Qed.

Lemma update_llm_object (update_data fields : gmap pystr json)
    (updated_fields : list pystr) (g : Globals) :
  update_data !! lit "llm" = Some (JObj fields) ->
  update_llm update_data updated_fields g =
    match fields !! lit "base_url" with
    | Some v =>
        (Return (updated_fields ++ [lit "llm.base_url"]),
         {| settings := set_lm_studio_base_url v (settings g);
            llm_client_base_url := v |})
    | None => (Return updated_fields, g)
    end.
Proof.
  intros H. unfold update_llm. rewrite H. run_se.
  destruct (fields !! lit "base_url") as [v|] eqn:Hv.
  - by rewrite bool_decide_eq_true_2 by eauto.
  - by rewrite bool_decide_eq_false_2 by by intros [? ?].
Qed.

Lemma update_rag_absent (update_data : gmap pystr json)
    (updated_fields : list pystr) (g : Globals) :
  update_data !! lit "rag" = None ->
  update_rag update_data updated_fields g = (Return updated_fields, g).
Proof. intros H. unfold update_rag. by rewrite H. Qed.

Lemma update_rag_object (update_data fields : gmap pystr json)
    (updated_fields : list pystr) (g : Globals) :
  update_data !! lit "rag" = Some (JObj fields) ->
  update_rag update_data updated_fields g =
    let top_k := fields !! lit "top_k" in
    let threshold := fields !! lit "similarity_threshold" in
    (Return (updated_fields
             ++ from_option (fun _ => [lit "rag.top_k"]) [] top_k
             ++ from_option (fun _ => [lit "rag.similarity_threshold"]) []
                  threshold),
     on_settings
       (fun s =>
          let s := from_option (fun v => set_rag_top_k v s) s top_k in
          from_option (fun v => set_rag_similarity_threshold v s) s threshold)
       g).
Proof.
  intros H. unfold update_rag. rewrite H. run_se. destruct g as [s url].
  destruct (fields !! lit "top_k") as [k|] eqn:Hk;
    destruct (fields !! lit "similarity_threshold") as [t|] eqn:Ht;
    cbn [from_option];
    repeat first
      [ rewrite bool_decide_eq_true_2 by eauto
      | rewrite bool_decide_eq_false_2 by by intros [? ?] ];
    rewrite ?app_nil_r, <- ?app_assoc; try done; by destruct s.
Qed.

(** The run of an update whose two sections are absent or objects. *)
Lemma update_settings_ok_run (update_data : gmap pystr json) (g : Globals) :
  section_ok update_data (lit "llm") ->
  section_ok update_data (lit "rag") ->
  let url := body_entry update_data (lit "llm") (lit "base_url") in
  let top_k := body_entry update_data (lit "rag") (lit "top_k") in
  let threshold :=
    body_entry update_data (lit "rag") (lit "similarity_threshold") in
  update_settings update_data g
  = (Updated (from_option (fun _ => [lit "llm.base_url"]) [] url
              ++ from_option (fun _ => [lit "rag.top_k"]) [] top_k
              ++ from_option (fun _ => [lit "rag.similarity_threshold"]) []
                   threshold),
     on_settings
       (fun s =>
          let s := from_option (fun v => set_rag_top_k v s) s top_k in
          from_option (fun v => set_rag_similarity_threshold v s) s threshold)
       (from_option
          (fun v => {| settings := set_lm_studio_base_url v (settings g);
                       llm_client_base_url := v |}) g url)).
Proof.
  unfold section_ok, body_entry, update_settings. intros Hllm Hrag.
  unfold mbind at 1. unfold SE_bind.
  destruct (update_data !! lit "llm") as [[| | | | |llm]|] eqn:Hl; try done;
    destruct (update_data !! lit "rag") as [[| | | | |rag]|] eqn:Hr; try done;
    first [ rewrite (update_llm_object _ _ _ _ Hl)
          | rewrite (update_llm_absent _ _ _ Hl) ];
    try destruct (llm !! lit "base_url") as [v|];
    first [ rewrite (update_rag_object _ _ _ _ Hr)
          | rewrite (update_rag_absent _ _ _ Hr) ];
    cbn [from_option app]; rewrite ?app_nil_r; try done;
    by destruct g as [[] ?].
Qed.

(** X6. An update whose ["llm"] and ["rag"] entries are absent or objects
    answers with success; each of the three runtime attributes takes the
    value the body gives for it and keeps its value when the body gives
    none, the client's URL is set together with the settings' URL, and the
    answer lists the attributes the body gave, in the order URL, top-K,
    threshold. *)
Theorem update_settings_applies (update_data : gmap pystr json) (g : Globals) :
  section_ok update_data (lit "llm") ->
  section_ok update_data (lit "rag") ->
  let url := body_entry update_data (lit "llm") (lit "base_url") in
  let top_k := body_entry update_data (lit "rag") (lit "top_k") in
  let threshold :=
    body_entry update_data (lit "rag") (lit "similarity_threshold") in
  let g' := (update_settings update_data g).2 in
  (update_settings update_data g).1
  = Updated (from_option (fun _ => [lit "llm.base_url"]) [] url
             ++ from_option (fun _ => [lit "rag.top_k"]) [] top_k
             ++ from_option (fun _ => [lit "rag.similarity_threshold"]) []
                  threshold)
  /\ lm_studio_base_url (settings g')
     = default (lm_studio_base_url (settings g)) url
  /\ llm_client_base_url g' = default (llm_client_base_url g) url
  /\ rag_top_k (settings g') = default (rag_top_k (settings g)) top_k
  /\ rag_similarity_threshold (settings g')
     = default (rag_similarity_threshold (settings g)) threshold.
Proof.
  intros Hllm Hrag url top_k threshold g'. subst g'.
  rewrite (update_settings_ok_run update_data g Hllm Hrag). cbv zeta.
  fold url top_k threshold. cbn [fst snd].
  split; [done|].
  destruct url as [u|], top_k as [k|], threshold as [t|]; done.
Qed.

Lemma update_settings_applies_witness :
  let body : gmap pystr json :=
    {[ lit "rag" := JObj {[ lit "top_k" := JNum (Int 8) ]} ]} in
  (update_settings body startup).1 = Updated [lit "rag.top_k"]
  /\ rag_top_k (settings (update_settings body startup).2) = JNum (Int 8)
  /\ lm_studio_base_url (settings (update_settings body startup).2)
     = lm_studio_base_url default_settings.
Proof.
  intros body.
  assert (section_ok body (lit "llm")) as Hllm by by vm_compute.
  assert (section_ok body (lit "rag")) as Hrag by by vm_compute.
  destruct (update_settings_applies body startup Hllm Hrag)
    as (Hanswer & Hurl & _ & Hk & _).
  split; [|split].
  - rewrite Hanswer. by vm_compute.
  - rewrite Hk. by vm_compute.
  - rewrite Hurl. by vm_compute.
Defined.

Lemma get_settings_llm (g : Globals) :
  get_settings g !! lit "llm"
  = Some (JObj {[ lit "base_url" := lm_studio_base_url (settings g);
                  lit "model" := JStr (lm_studio_model (settings g)) ]}).
Proof.
  unfold get_settings. rewrite lookup_insert_ne by by vm_compute.
  apply lookup_insert_eq.
Qed.

Lemma get_settings_rag (g : Globals) :
  get_settings g !! lit "rag"
  = Some (JObj {[ lit "top_k" := rag_top_k (settings g);
                  lit "similarity_threshold" :=
                    rag_similarity_threshold (settings g);
                  lit "chunk_size" := JNum (Int (chunk_size (settings g)));
                  lit "chunk_overlap" := JNum (Int (chunk_overlap (settings g))) ]}).
Proof.
  unfold get_settings. do 4 rewrite lookup_insert_ne by by vm_compute.
  apply lookup_insert_eq.
Qed.

(** X7. Sending back what [get_settings] answered changes no setting: the
    update reports the three runtime attributes as updated, the settings
    are the same as before, and the client is set to the settings' URL. *)
Theorem update_with_current_settings (g : Globals) :
  update_settings (get_settings g) g
  = (Updated [lit "llm.base_url"; lit "rag.top_k";
              lit "rag.similarity_threshold"],
     {| settings := settings g;
        llm_client_base_url := lm_studio_base_url (settings g) |}).
Proof.
  unfold update_settings. unfold mbind at 1. unfold SE_bind.
  rewrite (update_llm_object _ _ _ _ (get_settings_llm g)).
  rewrite lookup_insert_eq.
  rewrite (update_rag_object _ _ _ _ (get_settings_rag g)). cbv zeta.
  rewrite lookup_insert_eq, lookup_insert_ne by by vm_compute.
  rewrite lookup_insert_eq. cbn [from_option app on_settings settings].
  do 2 f_equal. by destruct g as [[] ?].
Qed.

(** X8. An update whose ["llm"] entry is null, a boolean or a number is
    answered with the 500 of a [TypeError] and changes nothing.  When the
    ["llm"] entry is absent or an object and it is the ["rag"] entry that is
    null, a boolean or a number, the answer is the same 500, but a URL the
    body gave has been assigned by then, to the settings and to the client;
    top-K and threshold are as before. *)
Theorem update_settings_rejects_scalar_section
    (update_data : gmap pystr json) (g : Globals) (v : json) :
  not_a_container v ->
  (update_data !! lit "llm" = Some v ->
     update_settings update_data g = (ServerError TypeError, g))
  /\ (section_ok update_data (lit "llm") ->
      update_data !! lit "rag" = Some v ->
      let url := body_entry update_data (lit "llm") (lit "base_url") in
      update_settings update_data g
      = (ServerError TypeError,
         {| settings :=
              from_option (fun u => set_lm_studio_base_url u (settings g))
                (settings g) url;
            llm_client_base_url := default (llm_client_base_url g) url |})).
Proof.
  intros Hv. split.
  - intros Hl. unfold update_settings, update_llm. rewrite Hl.
    destruct v; try done; by run_se.
  - unfold section_ok, body_entry. intros Hllm Hr.
    unfold update_settings. unfold mbind at 1. unfold SE_bind.
    destruct (update_data !! lit "llm") as [[| | | | |llm]|] eqn:Hl; try done;
      first [ rewrite (update_llm_object _ _ _ _ Hl)
            | rewrite (update_llm_absent _ _ _ Hl) ];
      try destruct (llm !! lit "base_url") as [u|];
      unfold update_rag; rewrite Hr;
      destruct v; try done; run_se; cbn [from_option default];
      by destruct g.
Qed.

Lemma update_settings_rejects_scalar_section_witness :
  update_settings {[ lit "llm" := JNum (Int 1) ]} startup
  = (ServerError TypeError, startup)
  /\ update_settings
       {[ lit "llm" := JObj {[ lit "base_url" := JStr (lit "http://gpu:9000/v1") ]};
          lit "rag" := JNull ]} startup
     = (ServerError TypeError,
        {| settings := set_lm_studio_base_url (JStr (lit "http://gpu:9000/v1"))
                         default_settings;
           llm_client_base_url := JStr (lit "http://gpu:9000/v1") |}).
Proof.
  split.
  - apply (proj1 (update_settings_rejects_scalar_section _ startup
                    (JNum (Int 1)) I)).
    by vm_compute.
  - rewrite (proj2 (update_settings_rejects_scalar_section
                      {[ lit "llm" := JObj {[ lit "base_url" :=
                                                JStr (lit "http://gpu:9000/v1") ]};
                         lit "rag" := JNull ]} startup JNull I))
      by by vm_compute.
    by vm_compute.
Defined.

End SettingsUpdates.

(** ** Document routes: failures *)

Section DocumentFailures.
Import Documents.

Context {embedding vectordb : Type}.
Variable extract_text_from_file :
  list N -> pystr -> option pystr -> except pystr.
Variable clean_text : pystr -> except pystr.
Variable create_chunks_with_metadata :
  pystr -> option pystr -> pystr -> except (list pystr * list pystr * list metadata).
Variable encode_documents : list pystr -> except (list embedding).
Variable add_documents :
  list pystr -> list pystr -> list embedding -> list metadata ->
  vectordb -> except unit * vectordb.
Variable delete_by_filename : pystr -> vectordb -> except Z * vectordb.
Variable str_exn : exn -> pystr.

Local Abbreviation upload_document' :=
  (upload_document extract_text_from_file clean_text
     create_chunks_with_metadata encode_documents add_documents str_exn).
Local Abbreviation upload_text' :=
  (upload_text clean_text create_chunks_with_metadata encode_documents
     add_documents str_exn).
Local Abbreviation delete_document' :=
  (delete_document (embedding := embedding) delete_by_filename str_exn).

#[local] Arguments lit : simpl never.

Ltac run_body :=
  unfold raise, lift, call, call_db, mbind, SE_bind, mret, SE_ret;
  cbn [fst snd db trace negb].


Lemma guard_state {A} (prefix : pystr) (body : SE (World embedding vectordb) A)
    (w : World embedding vectordb) :
  (guard embedding vectordb str_exn prefix body w).2 = (body w).2.
Proof. unfold guard. destruct (body w) as [[a|e'] w']; [done|]. by destruct e'. Qed.


(** X10. An upload changes the store by at most one call, the call to
    [add_documents] that ends it: either the store is as it was, or it is as
    that call left it and the call is the last one the handler made.  A
    failure of cleaning, chunking or embedding therefore leaves the store
    untouched. *)
Theorem upload_changes_store_only_by_add
    (file : UploadFile) (request : TextUploadRequest)
    (w : World embedding vectordb) :
  let changed_only_by_add (w' : World embedding vectordb) :=
    db w' = db w
    \/ exists ids chunks embeddings metadatas,
         db w' = (add_documents ids chunks embeddings metadatas (db w)).2
         /\ last (trace w') = Some (CallAdd ids chunks embeddings metadatas) in
  changed_only_by_add (upload_text' request w).2
  /\ changed_only_by_add (upload_document' file w).2.
Proof.
  intros changed. subst changed. cbv beta.
  unfold upload_text, upload_document. rewrite !guard_state. split.
  - run_body. destruct (clean_text _) as [text|]; [|by left].
    destruct (truthy (strip text)); cbn [negb]; [|by left].
    destruct (create_chunks_with_metadata _ _ _) as [[[ids chunks] mds]|];
      cbn [fst snd db trace]; [|by left].
    destruct (encode_documents chunks) as [embs|]; cbn [fst snd db trace];
      [|by left].
    right. exists ids, chunks, embs, mds.
    destruct (add_documents _ _ _ _ _) as [[[]|] d'];
      cbn [fst snd db trace]; by rewrite last_snoc.
  - run_body. destruct (file_type_of file) as [file_type|]; [|by left].
    destruct (extract_text_from_file _ _ _) as [raw|];
      cbn [fst snd db trace]; [|by left].
    destruct (clean_text raw) as [text|]; cbn [fst snd db trace]; [|by left].
    destruct (truthy (strip text)); cbn [negb]; [|by left].
    destruct (create_chunks_with_metadata _ _ _) as [[[ids chunks] mds]|];
      cbn [fst snd db trace]; [|by left].
    destruct (encode_documents chunks) as [embs|]; cbn [fst snd db trace];
      [|by left].
    right. exists ids, chunks, embs, mds.
    destruct (add_documents _ _ _ _ _) as [[[]|] d'];
      cbn [fst snd db trace]; by rewrite last_snoc.
Qed.

End DocumentFailures.

(** ** Splitting and stripping *)

Section SplitFacts.
Import Documents.

Lemma split_nonempty (sep : N) (s : pystr) : split sep s <> [].
Proof.
  destruct s as [|c s]; cbn [split]; [done|].
  destruct (c =? sep)%N; [done|]. by destruct (split sep s).
Qed.

(** Joining the pieces with the separator gives the string back. *)
Lemma join_split (sep : N) (s : pystr) : join [sep] (split sep s) = s.
Proof.
  induction s as [|c s IH]; [done|]. cbn [split].
  pose proof (split_nonempty sep s) as Hne.
  destruct (N.eqb_spec c sep) as [->|Hc].
  - destruct (split sep s) as [|piece pieces]; [done|].
    cbn [join app]. by rewrite <- IH.
  - destruct (split sep s) as [|piece pieces]; [done|].
    rewrite <- IH. by destruct pieces.
Qed.

Lemma split_no_sep (sep : N) (s : pystr) :
  Forall (fun piece => sep ∉ piece) (split sep s).
Proof.
  induction s as [|c s IH]; cbn [split].
  - constructor; [by intros ?%elem_of_nil | constructor].
  - destruct (N.eqb_spec c sep) as [->|Hc].
    + constructor; [by intros ?%elem_of_nil | done].
    + pose proof (split_nonempty sep s) as Hne.
      destruct (split sep s) as [|piece pieces]; [done|].
      apply Forall_cons in IH as [Hpiece Hpieces].
      constructor; [|done]. intros [?|?]%elem_of_cons; [by subst | done].
Qed.

Lemma split_one (sep : N) (p : pystr) : sep ∉ p -> split sep p = [p].
Proof.
  induction p as [|c p IH]; [done|].
  intros [Hc Hp]%not_elem_of_cons. cbn [split].
  destruct (N.eqb_spec c sep) as [->|_]; [done|]. by rewrite (IH Hp).
Qed.

Lemma split_app_sep (sep : N) (p rest : pystr) :
  sep ∉ p -> split sep (p ++ sep :: rest) = p :: split sep rest.
Proof.
  induction p as [|c p IH].
  - intros _. cbn [app split]. by rewrite N.eqb_refl.
  - intros [Hc Hp]%not_elem_of_cons. rewrite <- app_comm_cons. cbn [split].
    destruct (N.eqb_spec c sep) as [->|_]; [done|]. by rewrite (IH Hp).
Qed.

(** Splitting what was joined gives the pieces back, when no piece holds
    the separator. *)
Lemma split_join (sep : N) (parts : list pystr) :
  parts <> [] ->
  Forall (fun piece => sep ∉ piece) parts ->
  split sep (join [sep] parts) = parts.
Proof.
  induction parts as [|p parts IH]; [done|]. intros _ [Hp Hparts]%Forall_cons.
  destruct parts as [|q parts]; [by apply split_one|].
  change (join [sep] (p :: q :: parts)) with (p ++ sep :: join [sep] (q :: parts)).
  by rewrite split_app_sep, IH.
Qed.

Lemma split_length (sep : N) (s : pystr) :
  length (split sep s) = S (length (filter (fun c => c = sep) s)).
Proof.
  induction s as [|c s IH]; [done|]. cbn [split]. rewrite filter_cons.
  pose proof (split_nonempty sep s) as Hne.
  destruct (N.eqb_spec c sep) as [->|Hc].
  - rewrite decide_True by done. cbn [length]. by rewrite IH.
  - rewrite decide_False by done.
    destruct (split sep s) as [|piece pieces]; [done|]. by rewrite <- IH.
Qed.

Lemma join_snoc (sep : pystr) (parts : list pystr) (p : pystr) :
  parts <> [] -> join sep (parts ++ [p]) = join sep parts ++ sep ++ p.
Proof.
  induction parts as [|q parts IH]; [done|]. intros _.
  destruct parts as [|r parts]; [done|].
  change (join sep ((q :: r :: parts) ++ [p]))
    with (q ++ sep ++ join sep ((r :: parts) ++ [p])).
  rewrite IH by done.
  change (join sep (q :: r :: parts)) with (q ++ sep ++ join sep (r :: parts)).
  by rewrite <- !app_assoc.
Qed.

(** The last piece: the part of the string after its last separator. *)
Lemma last_piece (sep : N) (s : pystr) :
  exists stem,
    s = stem ++ last_item (split sep s)
    /\ (sep ∉ last_item (split sep s))
    /\ (stem = [] \/ last stem = Some sep).
Proof.
  pose proof (join_split sep s) as Hjoin.
  pose proof (split_no_sep sep s) as Hno.
  pose proof (split_nonempty sep s) as Hne.
  destruct (split sep s) as [|p ps _] using rev_ind; [done|].
  unfold last_item. rewrite last_snoc. cbn [default].
  apply Forall_app in Hno as [_ [Hp _]%Forall_cons].
  destruct ps as [|q ps].
  - exists []. cbn in Hjoin. by eauto.
  - rewrite join_snoc in Hjoin by done.
    exists (join [sep] (q :: ps) ++ [sep]).
    rewrite <- app_assoc. split; [done|]. split; [done|].
    right. by rewrite last_snoc.
Qed.

Lemma lstrip_suffix (s : pystr) : exists skipped, s = skipped ++ lstrip s.
Proof.
  induction s as [|c s [skipped Hs]]; cbn [lstrip]; [by exists []|].
  destruct (isspace c); [|by exists []].
  exists (c :: skipped). by rewrite <- app_comm_cons, <- Hs.
Qed.

Lemma lstrip_starts_clean (s : pystr) : starts_clean (lstrip s).
Proof.
  induction s as [|c s IH]; cbn [lstrip]; [done|].
  by destruct (isspace c) eqn:Hc.
Qed.

Lemma lstrip_clean (s : pystr) : starts_clean s -> lstrip s = s.
Proof. destruct s as [|c s]; cbn; [done|]. by intros ->. Qed.

Lemma strip_clean (s : pystr) :
  starts_clean s -> starts_clean (reverse s) -> strip s = s.
Proof.
  intros Hhead Hlast. unfold strip, rstrip.
  by rewrite (lstrip_clean s), (lstrip_clean (reverse s)), reverse_involutive.
Qed.

Lemma strip_ends_clean (s : pystr) :
  starts_clean (strip s) /\ starts_clean (reverse (strip s)).
Proof.
  unfold strip, rstrip. rewrite reverse_involutive.
  split; [|apply lstrip_starts_clean].
  pose proof (lstrip_starts_clean s) as Hhead.
  destruct (lstrip_suffix (reverse (lstrip s))) as [skipped Hs].
  apply (f_equal reverse) in Hs.
  rewrite reverse_involutive, reverse_app in Hs.
  destruct (reverse (lstrip (reverse (lstrip s)))) as [|c rest]; [done|].
  rewrite Hs in Hhead. done.
Qed.

(** Stripping twice is stripping once. *)
Lemma strip_idempotent (s : pystr) : strip (strip s) = strip s.
Proof. apply strip_clean; apply strip_ends_clean. Qed.

Lemma lstrip_elem (s : pystr) (c : N) : c ∈ lstrip s -> c ∈ s.
Proof.
  destruct (lstrip_suffix s) as [skipped Hs]. intros Hc.
  rewrite Hs. apply elem_of_app. by right.
Qed.

Lemma strip_elem (s : pystr) (c : N) : c ∈ strip s -> c ∈ s.
Proof.
  unfold strip, rstrip. rewrite elem_of_reverse.
  intros H%lstrip_elem. rewrite elem_of_reverse in H. by apply lstrip_elem.
Qed.

End SplitFacts.

(** ** The list of allowed origins *)

Section OriginFacts.
Import Main Config Documents.

(** X11. Every allowed origin the settings give is free of commas and of
    surrounding whitespace, and there is one origin more than there are
    commas in the configured string: the list is never empty, and an empty
    string between two commas gives an empty origin. *)
Theorem cors_origins_list_entries (s : Settings) :
  length (cors_origins_list s)
    = S (length (filter (fun c => c = 44%N) (cors_origins s)))
  /\ Forall (fun origin => (44%N ∉ origin) /\ strip origin = origin)
       (cors_origins_list s).
Proof.
  unfold cors_origins_list. split.
  - by rewrite length_fmap, split_length.
  - apply Forall_fmap. eapply Forall_impl; [apply split_no_sep|].
    intros piece Hpiece. cbn. split; [|apply strip_idempotent].
    by intros ?%strip_elem.
Qed.

(** X12. A configured string that is a comma-separated list of origins,
    none of them with a comma or surrounding whitespace in it, gives those
    origins back, in order. *)
Theorem cors_origins_list_of_joined (s : Settings) (origins : list pystr) :
  origins <> [] ->
  Forall (fun origin => (44%N ∉ origin) /\ strip origin = origin) origins ->
  cors_origins s = join [44%N] origins ->
  cors_origins_list s = origins.
Proof.
  intros Hne Hall Hs. unfold cors_origins_list. rewrite Hs.
  rewrite split_join; [|done|by eapply Forall_impl; [done|]; intros ? []].
  clear Hne Hs. induction Hall as [|origin rest [_ Hstrip] _ IH]; [done|].
  cbn [fmap list_fmap]. by rewrite Hstrip, IH.
Qed.

Lemma cors_origins_list_of_joined_witness :
  cors_origins_list default_settings
  = [lit "http://localhost:3000"; lit "https://localhost:3000";
     lit "http://localhost:3001"; lit "https://localhost:3001"].
Proof.
  apply cors_origins_list_of_joined.
  - done.
  - repeat constructor; try by vm_compute.
    all: apply (bool_decide_unpack _); by vm_compute.
  - by vm_compute.
Defined.

End OriginFacts.

(** ** Names and types of uploads *)

Section UploadNames.
Import Documents.

(** X13. The name a text is stored under always ends in [.md] or [.txt],
    and computing it from a stored name changes nothing. *)
Theorem stored_filename_idempotent (name : pystr) :
  stored_filename (stored_filename name) = stored_filename name
  /\ (endswith (stored_filename name) (lit ".md") = true
      \/ endswith (stored_filename name) (lit ".txt") = true).
Proof.
  assert (endswith (stored_filename name) (lit ".md") = true
          \/ endswith (stored_filename name) (lit ".txt") = true) as Hends.
  { unfold stored_filename, endswith_any. cbn [existsb].
    destruct (endswith name (lit ".md")) eqn:Hmd; [by left|].
    destruct (endswith name (lit ".txt")) eqn:Htxt; [by right|].
    left. apply endswith_app. by eexists. }
  split; [|done]. by apply stored_filename_keeps.
Qed.

(** X14. The file type of an upload is its declared content type when that
    is a non-empty string.  Otherwise it is taken from the filename: it is
    what follows the last dot, the whole name when there is no dot, and so
    has no dot in it; and an upload with neither a content type nor a
    filename raises [AttributeError]. *)
Theorem file_type_of_upload (file : UploadFile) :
  (forall ct, content_type file = Some ct -> ct <> [] ->
     file_type_of file = Return ct)
  /\ (content_type file = None \/ content_type file = Some [] ->
      match filename file with
      | Some name =>
          exists stem ext,
            file_type_of file = Return ext
            /\ name = stem ++ ext
            /\ (46%N ∉ ext)
            /\ (stem = [] \/ last stem = Some 46%N)
      | None => file_type_of file = Raise AttributeError
      end).
Proof.
  unfold file_type_of. split.
  - intros ct -> Hct. by destruct ct.
  - intros Hct.
    assert (match content_type file with
            | Some ct => if truthy ct then Return ct else
                match filename file with
                | Some name => Return (last_item (split 46 name))
                | None => Raise AttributeError
                end
            | None =>
                match filename file with
                | Some name => Return (last_item (split 46 name))
                | None => Raise AttributeError
                end
            end
            = match filename file with
              | Some name => Return (last_item (split 46 name))
              | None => Raise AttributeError
              end) as -> by (by destruct Hct as [-> | ->]).
    destruct (filename file) as [name|]; [|done].
    destruct (last_piece 46 name) as (stem & Hname & Hdot & Hstem).
    by exists stem, (last_item (split 46 name)).
Qed.

Lemma file_type_of_upload_witness :
  file_type_of {| filename := Some (lit "notes.txt");
                  content_type := Some (lit "text/plain");
                  file_bytes := [] |} = Return (lit "text/plain")
  /\ (exists stem ext,
        file_type_of {| filename := Some (lit "archive.tar.gz");
                        content_type := None; file_bytes := [] |} = Return ext
        /\ lit "archive.tar.gz" = stem ++ ext
        /\ (46%N ∉ ext)
        /\ (stem = [] \/ last stem = Some 46%N)).
Proof.
  split.
  - apply (proj1 (file_type_of_upload
                    {| filename := Some (lit "notes.txt");
                       content_type := Some (lit "text/plain");
                       file_bytes := [] |}) (lit "text/plain") eq_refl).
    by vm_compute.
  - apply (proj2 (file_type_of_upload
                    {| filename := Some (lit "archive.tar.gz");
                       content_type := None; file_bytes := [] |})).
    by left.
Defined.

End UploadNames.

(** ** Listing the documents *)

Section ListingFacts.
Import Documents.

#[local] Arguments lit : simpl never.

Lemma chunks_under_snoc (name : scalar) (mds : list metadata) (md : metadata) :
  chunks_under name (mds ++ [md])
  = (chunks_under name mds
     + if decide (listed_name md = name) then 1 else 0)%Z.
Proof.
  unfold chunks_under. rewrite filter_app, length_app, filter_cons, filter_nil.
  case_decide; cbn [length]; lia.
Qed.

Lemma chars_under_snoc (name : scalar) (mds : list metadata) (md : metadata) :
  chars_under name (mds ++ [md])
  = (chars_under name mds
     + if decide (listed_name md = name) then listed_chars md else 0)%Z.
Proof.
  unfold chars_under. induction mds as [|m mds IH]; cbn [app foldr].
  - case_decide; lia.
  - rewrite IH. repeat case_decide; lia.
Qed.

Lemma unlisted_counts_nothing (name : scalar) (mds : list metadata)
    (keys : list scalar) :
  Forall (fun md => listed_name md ∈ keys) mds -> name ∉ keys ->
  chunks_under name mds = 0%Z /\ chars_under name mds = 0%Z.
Proof.
  unfold chunks_under, chars_under.
  induction 1 as [|md mds Hmd _ IH]; intros Hname; [done|].
  rewrite filter_cons. cbn [foldr]. destruct (IH Hname) as [IH1 IH2].
  rewrite !decide_False by (by intros <-). done.
Qed.

Lemma count_chunk_keys (name : scalar) (chars : Z)
    (documents_map : list (scalar * DocumentSummary)) :
  (count_chunk name chars documents_map).*1 = documents_map.*1.
Proof.
  induction documents_map as [|[key d] rest IH]; [done|]. cbn [count_chunk].
  case_bool_decide; cbn [fmap list_fmap fst]; by rewrite ?IH.
Qed.

(** An entry under another name describes the chunks with one more chunk
    of [md]'s name as well. *)
Lemma describes_other (mds : list metadata) (md : metadata)
    (entry : scalar * DocumentSummary) :
  entry.1 <> listed_name md ->
  describes mds entry -> describes (mds ++ [md]) entry.
Proof.
  intros Hne (Hname & Hcount & Hchars). unfold describes.
  rewrite chunks_under_snoc, chars_under_snoc, !decide_False by done.
  repeat split; [done | lia | lia].
Qed.

Lemma describes_others (mds : list metadata) (md : metadata)
    (documents_map : list (scalar * DocumentSummary)) :
  listed_name md ∉ documents_map.*1 ->
  Forall (describes mds) documents_map ->
  Forall (describes (mds ++ [md])) documents_map.
Proof.
  induction documents_map as [|entry rest IH]; [done|].
  cbn [fmap list_fmap]. intros [Hne Hrest]%not_elem_of_cons [H Hall]%Forall_cons.
  constructor; [by apply describes_other | by apply IH].
Qed.

(** Counting a chunk of [md]'s name moves the map from describing [mds] to
    describing [mds] with [md] added. *)
Lemma count_chunk_describes (mds : list metadata) (md : metadata)
    (documents_map : list (scalar * DocumentSummary)) :
  NoDup documents_map.*1 ->
  Forall (describes mds) documents_map ->
  Forall (describes (mds ++ [md]))
    (count_chunk (listed_name md) (listed_chars md) documents_map).
Proof.
  induction documents_map as [|[key d] rest IH]; [done|].
  cbn [fmap list_fmap fst]. intros [Hkey Hrest]%NoDup_cons
    [(Hname & Hcount & Hchars) Hall]%Forall_cons. cbn [fst snd] in *.
  cbn [count_chunk]. case_bool_decide as Hk.
  - subst key. constructor.
    + unfold describes. cbn [fst snd doc_filename doc_chunk_count doc_total_chars].
      rewrite chunks_under_snoc, chars_under_snoc, !decide_True by by rewrite Hk.
      by rewrite Hcount, Hchars.
    + apply describes_others; [by rewrite <- Hk | done].
  - constructor; [|by apply IH].
    by apply describes_other.
Qed.

(** One pass of the loop body keeps the map a grouping. *)
Lemma visit_grouped (mds : list metadata) (md : metadata)
    (documents_map : list (scalar * DocumentSummary)) :
  int_or_absent md (lit "char_count") ->
  grouped mds documents_map ->
  exists documents_map',
    visit md documents_map = Return documents_map'
    /\ grouped (mds ++ [md]) documents_map'.
Proof.
  intros [chars Hchars] (Hnodup & Hdesc & Hseen). unfold visit.
  fold (listed_name md). rewrite Hchars.
  assert (listed_chars md = chars) as <- by (unfold listed_chars; by rewrite Hchars).
  eexists. split; [done|]. unfold grouped. rewrite count_chunk_keys.
  case_bool_decide as Hin.
  - split; [done|]. split; [by apply count_chunk_describes|].
    apply Forall_app. split; [done|]. by constructor.
  - destruct (unlisted_counts_nothing _ _ _ Hseen Hin) as [Hc0 Ht0].
    rewrite fmap_app. cbn [fmap list_fmap fst]. split; [|split].
    + apply NoDup_app. split; [done|]. split; [|apply NoDup_singleton].
      intros k Hk ->%list_elem_of_singleton. done.
    + apply count_chunk_describes.
      * rewrite fmap_app. apply NoDup_app. split; [done|].
        split; [|apply NoDup_singleton].
        intros k Hk ->%list_elem_of_singleton. done.
      * apply Forall_app. split; [done|]. constructor; [|done].
        unfold describes. cbn [fst snd doc_filename doc_chunk_count doc_total_chars].
        by rewrite Hc0, Ht0.
    + apply Forall_app. split.
      * eapply Forall_impl; [exact Hseen|]. intros m Hm.
        apply elem_of_app. by left.
      * constructor; [|done]. apply elem_of_app. right. apply list_elem_of_here.
Qed.

(** The loop from index [i] on, when the metadata list is long enough. *)
Lemma group_chunks_grouped (metadatas : list metadata) (ids : list pystr) :
  forall (i : nat) (documents_map : list (scalar * DocumentSummary)),
  i + length ids <= length metadatas ->
  Forall (fun md => int_or_absent md (lit "char_count"))
    (take (i + length ids) metadatas) ->
  grouped (take i metadatas) documents_map ->
  exists documents_map',
    group_chunks i ids metadatas documents_map = Return documents_map'
    /\ grouped (take (i + length ids) metadatas) documents_map'.
Proof.
  induction ids as [|id ids IH]; intros i documents_map Hlen Hints Hgrouped.
  - exists documents_map. by rewrite Nat.add_0_r.
  - cbn [length] in *. destruct (lookup_lt_is_Some_2 metadatas i) as [md Hmd]; [lia|].
    cbn [group_chunks]. unfold item. rewrite Hmd.
    assert (int_or_absent md (lit "char_count")) as Hint.
    { apply (proj1 (Forall_lookup _ _) Hints i md).
      by rewrite lookup_take_lt by lia. }
    destruct (visit_grouped _ md _ Hint Hgrouped) as (m1 & Hvisit & Hg1).
    cbn [mbind except_bind]. rewrite Hvisit.
    rewrite <- (take_S_r _ _ _ Hmd) in Hg1.
    replace (i + S (length ids)) with (S i + length ids) in * by lia.
    by apply IH.
Qed.

Lemma grouped_names (mds : list metadata)
    (documents_map : list (scalar * DocumentSummary)) :
  grouped mds documents_map ->
  doc_filename <$> documents_map.*2 = documents_map.*1.
Proof.
  intros (_ & Hdesc & _). induction Hdesc as [|[k d] rest (Hname & _) _ IH];
    [done|].
  cbn [fmap list_fmap fst snd] in *. by rewrite Hname, IH.
Qed.

(** X15. Listing a store whose rows carry integer character counts (or
    none) answers with one summary per filename: no filename is listed
    twice, every stored chunk's filename is listed, each summary's chunk
    count and character total are those of the chunks stored under its
    filename, and the total is the number of summaries.  A chunk without a
    filename counts under ["unknown"]. *)
Theorem list_documents_groups_by_filename
    (str_exn : exn -> pystr) (results : AllDocuments) :
  let mds := take (length (all_ids results)) (all_metadatas results) in
  length (all_ids results) <= length (all_metadatas results) ->
  Forall (fun md => int_or_absent md (lit "char_count")) mds ->
  exists response,
    list_documents str_exn (Return results) = Return response
    /\ total_count response = Z.of_nat (length (documents response))
    /\ NoDup (doc_filename <$> documents response)
    /\ (forall md, md ∈ mds ->
          listed_name md ∈ doc_filename <$> documents response)
    /\ (forall d, d ∈ documents response ->
          doc_chunk_count d = chunks_under (doc_filename d) mds
          /\ doc_total_chars d = chars_under (doc_filename d) mds).
Proof.
  intros mds Hlen Hints. subst mds.
  destruct (group_chunks_grouped (all_metadatas results) (all_ids results) 0 []
              Hlen Hints) as (m & Hrun & Hgrouped).
  { split; [constructor|]. split; constructor. }
  cbn [Nat.add] in Hgrouped.
  exists {| documents := m.*2; total_count := Z.of_nat (length m) |}.
  split; [|split; [|split; [|split]]]; cbn [documents total_count].
  - unfold list_documents, answer. cbn [mbind except_bind]. by rewrite Hrun.
  - by rewrite length_fmap.
  - rewrite (grouped_names _ _ Hgrouped). apply Hgrouped.
  - rewrite (grouped_names _ _ Hgrouped).
    destruct Hgrouped as (_ & _ & Hseen). intros md Hmd.
    by apply (proj1 (Forall_forall _ _) Hseen).
  - destruct Hgrouped as (_ & Hdesc & _). intros d [[k d'] [-> Hin]]%list_elem_of_fmap.
    destruct (proj1 (Forall_forall _ _) Hdesc _ Hin) as (Hname & Hcount & Hchars).
    cbn [fst snd] in *. by rewrite Hname.
Qed.

Lemma list_documents_groups_by_filename_witness :
  exists response,
    list_documents no_message (store_get_all (db stocked_world)) = Return response
    /\ total_count response = Z.of_nat (length (documents response))
    /\ NoDup (doc_filename <$> documents response).
Proof.
  destruct (list_documents_groups_by_filename no_message
              {| all_ids := rec_id <$> db stocked_world;
                 all_documents := rec_document <$> db stocked_world;
                 all_metadatas := rec_metadata <$> db stocked_world |})
    as (response & Hrun & Htotal & Hnodup & _).
  - by vm_compute.
  - repeat constructor; by exists 0%Z.
  - by exists response.
Defined.

End ListingFacts.

(** ** The chunks of one document *)

Section ContentFacts.
Import Documents.

#[local] Arguments lit : simpl never.

(** The loop collects, in store order, the views of the rows whose filename
    is [name]. *)
Lemma matching_chunks_rows (results : AllDocuments) (name : pystr)
    (ids : list pystr) :
  forall (i : nat) (found : list ChunkView),
  i + length ids <= length (all_metadatas results) ->
  i + length ids <= length (all_documents results) ->
  matching_chunks i ids results name found
  = Return (found ++ (view_of <$>
              filter (fun row => row.1 !! lit "filename" = Some (SStr name))
                (zip (take (length ids) (drop i (all_metadatas results)))
                     (take (length ids) (drop i (all_documents results)))))).
Proof.
  induction ids as [|id ids IH]; intros i found Hmds Hdocs.
  - cbn. by rewrite app_nil_r.
  - cbn [length] in *.
    destruct (lookup_lt_is_Some_2 (all_metadatas results) i) as [md Hmd]; [lia|].
    destruct (lookup_lt_is_Some_2 (all_documents results) i) as [doc Hdoc]; [lia|].
    cbn [matching_chunks]. unfold item. rewrite Hmd. cbn [mbind except_bind].
    rewrite (drop_S _ _ _ Hmd), (drop_S _ _ _ Hdoc). cbn [take zip zip_with].
    rewrite filter_cons. cbn [fst].
    case_bool_decide as Hname.
    + rewrite decide_True by done. rewrite Hdoc. cbn [mbind except_bind].
      rewrite IH by lia. by rewrite <- app_assoc.
    + rewrite decide_False by done. by rewrite IH by lia.
Qed.

Lemma matching_chunks_all (results : AllDocuments) (name : pystr) :
  length (all_ids results) <= length (all_metadatas results) ->
  length (all_ids results) <= length (all_documents results) ->
  matching_chunks 0 (all_ids results) results name []
  = Return (chunks_of name results).
Proof.
  intros Hmds Hdocs. by rewrite matching_chunks_rows.
Qed.

(** Inserting into a list of integer-indexed chunks. *)
Lemma insert_chunk_int (x : ChunkView) (sorted : list ChunkView) :
  int_index x -> Forall int_index sorted ->
  exists l,
    insert_chunk x sorted = Return l
    /\ l ≡ₚ x :: sorted
    /\ Forall int_index l
    /\ (forall z, filter (fun c => index_of c = z) l
                  = filter (fun c => index_of c = z) (x :: sorted))
    /\ (StronglySorted (fun a b => (index_of a <= index_of b)%Z) sorted ->
        StronglySorted (fun a b => (index_of a <= index_of b)%Z) l).
Proof.
  intros [zx Hx].
  assert (index_of x = zx) as Hix by (unfold index_of; by rewrite Hx).
  induction 1 as [|y rest [zy Hy] Hrest IH].
  - exists [x]. repeat split; try done.
    + constructor; [by exists zx | constructor].
    + intros _. repeat constructor.
  - assert (index_of y = zy) as Hiy by (unfold index_of; by rewrite Hy).
    cbn [insert_chunk]. unfold py_lt. rewrite Hy, Hx. cbn [mbind except_bind].
    destruct (Z.ltb_spec zy zx) as [Hlt|Hge].
    + destruct IH as (l & Hrun & Hperm & Hint & Hstable & Hsorted).
      rewrite Hrun. cbn [mbind except_bind]. exists (y :: l).
      split; [done|]. split; [by rewrite Hperm; apply Permutation_swap|].
      split; [constructor; [by exists zy | done]|]. split.
      * intros z. rewrite !filter_cons, Hstable, filter_cons, Hix, Hiy.
        repeat case_decide; try done; lia.
      * intros Hs. apply StronglySorted_inv in Hs as [Hs Hall].
        constructor; [by apply Hsorted|].
        rewrite Hperm. constructor; [lia | done].
    + exists (x :: y :: rest). split; [done|]. split; [done|].
      split; [constructor; [by exists zx|]; constructor; [by exists zy | done]|].
      split; [done|].
      intros Hs. constructor; [done|].
      pose proof (StronglySorted_inv Hs) as [_ Hall].
      constructor; [lia|].
      eapply Forall_impl; [exact Hall|]. intros c Hc. cbn in *. lia.
Qed.

(** Sorting integer-indexed chunks: the result is the chunks in ascending
    order of index, chunks of equal index in the order they had. *)
Lemma sort_chunks_int (l : list ChunkView) :
  Forall int_index l ->
  exists sorted,
    sort_chunks l = Return sorted
    /\ sorted ≡ₚ l
    /\ Forall int_index sorted
    /\ (forall z, filter (fun c => index_of c = z) sorted
                  = filter (fun c => index_of c = z) l)
    /\ StronglySorted (fun a b => (index_of a <= index_of b)%Z) sorted.
Proof.
  induction 1 as [|x rest Hx Hrest IH].
  - exists []. repeat split; try done. constructor.
  - destruct IH as (s & Hrun & Hperm & Hint & Hstable & Hsorted).
    destruct (insert_chunk_int x s Hx Hint)
      as (l & Hins & Hperm' & Hint' & Hstable' & Hsorted').
    exists l. cbn [sort_chunks]. rewrite Hrun. cbn [mbind except_bind].
    split; [done|]. split; [by rewrite Hperm', Hperm|]. split; [done|].
    split; [|by apply Hsorted'].
    intros z. by rewrite Hstable', !filter_cons, Hstable.
Qed.

(** X16. Asking for a document's content, over a store whose rows of that
    filename carry integer chunk indexes (or none, which counts as 0):
    when no stored chunk has the filename the answer is the 404; otherwise
    it holds exactly the chunks of that filename, in ascending order of
    chunk index, chunks of equal index in store order, together with their
    number. *)
Theorem document_content_sorted
    (str_exn : exn -> pystr) (name : pystr) (results : AllDocuments) :
  length (all_ids results) <= length (all_metadatas results) ->
  length (all_ids results) <= length (all_documents results) ->
  Forall int_index (chunks_of name results) ->
  match chunks_of name results with
  | [] =>
      get_document_content str_exn name (Return results)
      = Raise (HTTPException 404 (lit "Document not found: " ++ name))
  | _ :: _ =>
      exists response,
        get_document_content str_exn name (Return results) = Return response
        /\ c_filename response = name
        /\ total_chunks response
           = Z.of_nat (length (chunks_of name results))
        /\ chunks response ≡ₚ chunks_of name results
        /\ StronglySorted (fun a b => (index_of a <= index_of b)%Z)
             (chunks response)
        /\ (forall z, filter (fun c => index_of c = z) (chunks response)
                      = filter (fun c => index_of c = z)
                          (chunks_of name results))
  end.
Proof.
  intros Hmds Hdocs Hints. unfold get_document_content, answer.
  cbn [mbind except_bind]. rewrite (matching_chunks_all _ _ Hmds Hdocs).
  destruct (chunks_of name results) as [|c found] eqn:Hfound; [done|].
  destruct (sort_chunks_int _ Hints)
    as (sorted & Hrun & Hperm & _ & Hstable & Hsorted).
  cbn [mbind except_bind]. rewrite Hrun. cbn [mbind except_bind].
  eexists. split; [done|].
  cbn [c_filename total_chunks chunks].
  split; [done|]. split; [by rewrite Hperm|]. done.
Qed.

Lemma document_content_sorted_witness :
  (exists response,
     get_document_content no_message (lit "greens.md")
       (store_get_all (reverse (db stocked_world))) = Return response
     /\ total_chunks response = 2%Z
     /\ (chunk_content <$> chunks response)
        = [lit "Spinach is a leafy green."; lit "It is rich in iron."])
  /\ get_document_content no_message (lit "greens")
       (store_get_all (db stocked_world))
     = Raise (HTTPException 404 (lit "Document not found: greens")).
Proof.
  split.
  - pose proof (document_content_sorted no_message (lit "greens.md")
                  {| all_ids := rec_id <$> reverse (db stocked_world);
                     all_documents := rec_document <$> reverse (db stocked_world);
                     all_metadatas := rec_metadata <$> reverse (db stocked_world) |})
      as H.
    assert (chunks_of (lit "greens.md")
              {| all_ids := rec_id <$> reverse (db stocked_world);
                 all_documents := rec_document <$> reverse (db stocked_world);
                 all_metadatas := rec_metadata <$> reverse (db stocked_world) |}
            = [ {| chunk_index := SInt 1;
                   chunk_content := lit "It is rich in iron.";
                   chunk_char_count := SInt 0 |};
                {| chunk_index := SInt 0;
                   chunk_content := lit "Spinach is a leafy green.";
                   chunk_char_count := SInt 0 |} ]) as Hchunks by by vm_compute.
    rewrite Hchunks in H.
    destruct H as (response & Hrun & _ & Htotal & _); [by vm_compute.. | |].
    { repeat constructor; by eexists. }
    exists response. split; [exact Hrun|]. split; [exact Htotal|].
    change (store_get_all (reverse (db stocked_world))) with
      (Return {| all_ids := rec_id <$> reverse (db stocked_world);
                 all_documents := rec_document <$> reverse (db stocked_world);
                 all_metadatas := rec_metadata <$> reverse (db stocked_world) |})
      in Hrun.
    assert (get_document_content no_message (lit "greens.md")
              (store_get_all (reverse (db stocked_world)))
            = Return {| c_filename := lit "greens.md"; total_chunks := 2;
                        chunks :=
                          [ {| chunk_index := SInt 0;
                               chunk_content := lit "Spinach is a leafy green.";
                               chunk_char_count := SInt 0 |};
                            {| chunk_index := SInt 1;
                               chunk_content := lit "It is rich in iron.";
                               chunk_char_count := SInt 0 |} ] |}) as Heval
      by by vm_compute.
    unfold store_get_all in Heval. rewrite Hrun in Heval.
    injection Heval as ->. by vm_compute.
  - pose proof (document_content_sorted no_message (lit "greens")
                  {| all_ids := rec_id <$> db stocked_world;
                     all_documents := rec_document <$> db stocked_world;
                     all_metadatas := rec_metadata <$> db stocked_world |})
      as H.
    assert (chunks_of (lit "greens")
              {| all_ids := rec_id <$> db stocked_world;
                 all_documents := rec_document <$> db stocked_world;
                 all_metadatas := rec_metadata <$> db stocked_world |} = [])
      as Hchunks by by vm_compute.
    rewrite Hchunks in H. apply H; [by vm_compute | by vm_compute | constructor].
Defined.

End ContentFacts.

(** ** Document routes: failures of the collaborators *)

Section DocumentEdges.
Import Documents.

Context {embedding vectordb : Type}.
Variable extract_text_from_file :
  list N -> pystr -> option pystr -> except pystr.
Variable clean_text : pystr -> except pystr.
Variable create_chunks_with_metadata :
  pystr -> option pystr -> pystr -> except (list pystr * list pystr * list metadata).
Variable encode_documents : list pystr -> except (list embedding).
Variable add_documents :
  list pystr -> list pystr -> list embedding -> list metadata ->
  vectordb -> except unit * vectordb.
Variable str_exn : exn -> pystr.

Local Abbreviation upload_document' :=
  (upload_document extract_text_from_file clean_text
     create_chunks_with_metadata encode_documents add_documents str_exn).
Local Abbreviation upload_text' :=
  (upload_text clean_text create_chunks_with_metadata encode_documents
     add_documents str_exn).

#[local] Arguments lit : simpl never.


(** X18. A file upload that declares no content type (or an empty one) and
    has no filename is answered with a 500 before anything is extracted,
    cleaned, chunked, embedded or stored. *)
Theorem upload_without_name_or_type
    (file : UploadFile) (w : World embedding vectordb) :
  content_type file = None \/ content_type file = Some [] ->
  filename file = None ->
  upload_document' file w
  = (Raise (HTTPException 500
              (lit "Failed to upload document: " ++ str_exn AttributeError)),
     w).
Proof.
  intros Hct Hname.
  unfold upload_document, guard, raise, lift, call, call_db, mbind, SE_bind,
    mret, SE_ret, file_type_of.
  rewrite Hname. by destruct Hct as [-> | ->].
Qed.

End DocumentEdges.

Section DocumentEdgeSamples.
Import Documents.



Lemma upload_without_name_or_type_witness :
  sample_upload_document
    {| filename := None; content_type := Some []; file_bytes := [104; 105]%N |}
    stocked_world
  = (Raise (HTTPException 500 (lit "Failed to upload document: ")),
     stocked_world).
Proof.
  unfold sample_upload_document.
  rewrite (upload_without_name_or_type (vectordb := list ChunkRecord)
             text_of_bytes keep_text one_chunk embed_lengths store_add
             no_message
             {| filename := None; content_type := Some [];
                file_bytes := [104; 105]%N |} stocked_world);
    [by vm_compute | by right | done].
Defined.

End DocumentEdgeSamples.
